(** * launch_gemma_api.py: the launcher of the local Gemma inference server

    A shallow embedding of [main] of [launch_gemma_api.py].  The launcher is a
    straight-line procedure with two guard clauses; what it does to the
    outside world (the error stream, the process environment, the server
    library and the HTTP runner) is recorded, in order, in a trace of events,
    and the process environment [os.environ] is an explicit piece of state.

    What the launcher reads from the machine is gathered in [Host].  The
    server library itself is not part of the repository: the settings objects
    are records with the fields the launcher passes or reads, and the two
    fields it reads without passing them ([ssl_keyfile], [ssl_certfile]) are
    filled by the library, which is a parameter of the development.

    A call into a library can also raise or exit instead of returning; the
    launcher catches nothing but the [ImportError] of its second guard.
    [Faults] says which calls end so on a run, and [main] stops there with
    the exception uncaught.  [launch] is the run on which every call returns;
    [run] is the run under given faults. *)

From Stdlib Require Import ZArith String Ascii List.
From stdpp Require Import base strings gmap list.

Local Open Scope Z_scope.

(** ** Paths

    [pathlib] keeps an absolute POSIX path as its sequence of components
    below the root. *)

Definition Path : Type := list string.

(** [Path.parent]: the root is its own parent. *)
Definition parent (p : Path) : Path := removelast p.

(** [p / name] for a single relative component. *)
Definition joinpath (p : Path) (name : string) : Path := p ++ [name].

Fixpoint str_parts (p : list string) : string :=
  match p with
  | [] => EmptyString
  | x :: r => "/" +:+ x +:+ str_parts r
  end.

(** [str(p)] *)
Definition path_str (p : Path) : string :=
  match p with
  | [] => "/"
  | _ => str_parts p
  end.

(** ** The host *)

Record Host : Type := {
  (** [Path(__file__).resolve()] *)
  script_file : Path;
  (** [Path.exists()] on the host's file system *)
  path_exists : Path -> bool;
  (** whether [llama_cpp.server.app] and [llama_cpp.server.settings] can be
      imported; [false]: the import raises [ImportError] *)
  server_importable : bool;
  (** [multiprocessing.cpu_count()] *)
  cpu_count : Z
}.

(** ** The settings objects of the server library *)

Record ServerSettings : Type := {
  host : string;
  port : Z;
  interrupt_requests : bool;
  ssl_keyfile : option string;
  ssl_certfile : option string
}.

Record ModelSettings : Type := {
  model : string;
  model_alias : string;
  chat_format : string;
  n_ctx : Z;
  n_gpu_layers : Z;
  n_threads : Z;
  n_threads_batch : Z;
  n_batch : Z;
  n_ubatch : Z;
  use_mmap : bool;
  use_mlock : bool;
  cache : bool;
  cache_type : string;
  cache_size : Z;
  offload_kqv : bool;
  flash_attn : bool;
  logits_all : bool;
  verbose : bool
}.

(** The application object of [create_app] is opaque to the launcher: it is
    kept as the arguments it was created from. *)
Record App : Type := {
  app_server_settings : ServerSettings;
  app_model_settings : list ModelSettings
}.

(** ** Effects *)

(** What the launcher does to the outside world, one event per step:
    - [EPrintErr msg]: [print(msg, file=sys.stderr)];
    - [EImportServer]: the two [from llama_cpp.server... import ...]
      succeeded;
    - [ESetEnv key value]: [os.environ[key] = value], as [setdefault]
      performs it for a missing key;
    - [EServerSettings s], [EModelSettings m]: a settings object was built;
    - [ECreateApp s ms]: [create_app(server_settings=s, model_settings=ms)];
    - [EImportUvicorn]: [import uvicorn];
    - [EUvicornRun app host port log_level ssl_keyfile ssl_certfile]:
      [uvicorn.run(...)], the only step that binds a port. *)
Inductive Event : Type :=
| EPrintErr (msg : string)
| EImportServer
| ESetEnv (key value : string)
| EServerSettings (s : ServerSettings)
| EModelSettings (m : ModelSettings)
| ECreateApp (s : ServerSettings) (ms : list ModelSettings)
| EImportUvicorn
| EUvicornRun (app : App) (bind_host : string) (bind_port : Z)
              (log_level : string) (keyfile certfile : option string).

(** The process: its environment [os.environ] and what it has done so far,
    oldest event first. *)
Record World : Type := {
  environ : gmap string string;
  trace : list Event
}.

Inductive Outcome (A : Type) : Type :=
| Returned (a : A)
| SystemExit (status : Z)
| Uncaught (exc : string).
Arguments Returned {A} a.
Arguments SystemExit {A} status.
Arguments Uncaught {A} exc.

(** A procedure of the launcher: it runs in a world and either returns, or
    raises [SystemExit], or raises another exception, named by its class;
    nothing in the launcher catches either. *)
Definition Proc (A : Type) : Type := World -> Outcome A * World.

Definition proc_ret {A} (a : A) : Proc A := fun w => (Returned a, w).

Definition proc_bind {A B} (m : Proc A) (k : A -> Proc B) : Proc B :=
  fun w =>
    match m w with
    | (Returned a, w') => k a w'
    | (SystemExit c, w') => (SystemExit c, w')
    | (Uncaught e, w') => (Uncaught e, w')
    end.

Notation "x <- m ;; k" := (proc_bind m (fun x => k))
  (at level 100, m at next level, right associativity, only parsing).
Notation "m ;;; k" := (proc_bind m (fun _ => k))
  (at level 100, right associativity, only parsing).

Definition emit (e : Event) : Proc unit :=
  fun w => (Returned tt, {| environ := environ w; trace := trace w ++ [e] |}).

(** [sys.exit(status)] and [raise SystemExit(status)] *)
Definition sys_exit {A} (status : Z) : Proc A :=
  fun w => (SystemExit status, w).

Definition print_stderr (msg : string) : Proc unit := emit (EPrintErr msg).

(** [os.environ.setdefault(key, default)]: the mapping is written only when
    the key is missing. *)
Definition environ_setdefault (key default : string) : Proc string :=
  fun w =>
    match environ w !! key with
    | Some v => (Returned v, w)
    | None =>
        (Returned default,
         {| environ := <[key := default]> (environ w);
            trace := trace w ++ [ESetEnv key default] |})
    end.

(** Reading [os.environ] *)
Definition get_environ : Proc (gmap string string) :=
  fun w => (Returned (environ w), w).

(** The interpreter's exit status: [SystemExit(n)] gives [n], a normal return
    of [main] gives 0, any other uncaught exception gives 1. *)
Definition exit_status (o : Outcome unit) : Z :=
  match o with
  | Returned _ => 0
  | SystemExit c => c
  | Uncaught _ => 1
  end.

(** ** Calls that do not return

    How a call into a library ends when it does not return: with an
    exception, or with [sys.exit] called inside the library. *)
Inductive Abrupt : Type :=
| Raises (exc : string)
| Exits (status : Z).

Definition abort {A} (a : Abrupt) : Proc A :=
  fun w =>
    (match a with
     | Raises exc => Uncaught exc
     | Exits status => SystemExit status
     end, w).

(** A call that returns what [m] computes unless it ends abruptly. *)
Definition library_call {A} (fault : option Abrupt) (m : Proc A) : Proc A :=
  match fault with
  | Some a => abort a
  | None => m
  end.

(** The calls of [main] into libraries, in the order of the source, each
    with the way it ends abruptly on this run, if it does.  For the import of
    the server library this is an exception other than [ImportError], which
    the [except] clause of the guard does not catch. *)
Record Faults : Type := {
  server_import_fault : option Abrupt;
  cpu_count_fault : option Abrupt;
  server_settings_fault : option Abrupt;
  model_settings_fault : option Abrupt;
  create_app_fault : option Abrupt;
  uvicorn_import_fault : option Abrupt;
  uvicorn_run_fault : option Abrupt
}.

(** Every call returns. *)
Definition no_faults : Faults :=
  {| server_import_fault := None;
     cpu_count_fault := None;
     server_settings_fault := None;
     model_settings_fault := None;
     create_app_fault := None;
     uvicorn_import_fault := None;
     uvicorn_run_fault := None |}.

(** The first call after the import that ends abruptly. *)
Definition first_startup_fault (f : Faults) : option Abrupt :=
  match cpu_count_fault f with Some a => Some a | None =>
  match server_settings_fault f with Some a => Some a | None =>
  match model_settings_fault f with Some a => Some a | None =>
  match create_app_fault f with Some a => Some a | None =>
  match uvicorn_import_fault f with Some a => Some a | None =>
  uvicorn_run_fault f end end end end end.

(** The first call that ends abruptly. *)
Definition first_fault (f : Faults) : option Abrupt :=
  match server_import_fault f with
  | Some a => Some a
  | None => first_startup_fault f
  end.

(** The number of start-up events a run performs after the defaults:
    settings objects built, [create_app] and [uvicorn.run] called, [uvicorn]
    imported. *)
Definition startup_progress (f : Faults) : nat :=
  match cpu_count_fault f, server_settings_fault f with
  | None, None =>
      match model_settings_fault f with
      | Some _ => 1%nat
      | None =>
          match create_app_fault f, uvicorn_import_fault f with
          | None, None => 5%nat
          | _, _ => 3%nat
          end
      end
  | _, _ => 0%nat
  end.

(** How a run ends that a call has cut short. *)
Definition abrupt_outcome (a : Abrupt) : Outcome unit :=
  match a with
  | Raises exc => Uncaught exc
  | Exits status => SystemExit status
  end.

(** ** Messages *)

Definition dquote : string := String (ascii_of_nat 34) EmptyString.
Definition newline : string := String (ascii_of_nat 10) EmptyString.

Definition model_not_found_msg (model_path : Path) : string :=
  "[!] Model file not found: " +:+ path_str model_path.

(** The remediation command of the missing-dependency diagnostic. *)
Definition install_command : string :=
  "pip install " +:+ dquote +:+ "llama-cpp-python[server]" +:+ dquote.

Definition missing_dependency_msg : string :=
  "[!] Missing dependency: llama-cpp-python with server extras." +:+ newline
  +:+ "    Install it with: " +:+ install_command.

(** ** Vocabulary of the statements *)

(** The model file the launcher looks for: [model_path] of [main]. *)
Definition model_file (h : Host) : Path :=
  joinpath (joinpath (parent (script_file h)) "Model") "gemma-3-270m-it-Q8_0.gguf".

(** Both guard clauses of [main] let the run through. *)
Definition passes_guards (h : Host) : bool :=
  path_exists h (model_file h) && server_importable h.

(** The three [setdefault] calls of [main], in order. *)
Definition gpu_env_defaults : list (string * string) :=
  [("LLAMA_CUBLAS", "0"); ("LLAMA_METAL", "0"); ("CUDA_VISIBLE_DEVICES", "-1")].

Definition setdefault_value (default : string) (old : option string) : string :=
  match old with Some v => v | None => default end.

Definition setdefault_env (key default : string) (env : gmap string string)
    : gmap string string :=
  match env !! key with Some _ => env | None => <[key := default]> env end.

Definition setdefault_log (key default : string) (env : gmap string string)
    : list Event :=
  match env !! key with Some _ => [] | None => [ESetEnv key default] end.

(** The environment after the three defaults, and the writes they perform. *)
Definition environ_with_defaults (env : gmap string string) : gmap string string :=
  foldl (fun e kd => setdefault_env kd.1 kd.2 e) env gpu_env_defaults.

Definition default_writes (env : gmap string string) : list Event :=
  flat_map (fun kd => setdefault_log kd.1 kd.2 env) gpu_env_defaults.

(** [s] occurs in [hay]. *)
Definition contains (s hay : string) : Prop :=
  exists pre post, hay = pre +:+ s +:+ post.

(** The events of building the configuration and starting the server. *)
Definition is_startup (e : Event) : bool :=
  match e with
  | EServerSettings _ | EModelSettings _ | ECreateApp _ _
  | EImportUvicorn | EUvicornRun _ _ _ _ _ _ => true
  | _ => false
  end.

(** ** Sample hosts *)

(** A file system that holds the model file under [/opt/runner], and nothing
    else the launcher asks about. *)
Definition model_under_opt_runner (p : Path) : bool :=
  bool_decide (p = ["opt"; "runner"; "Model"; "gemma-3-270m-it-Q8_0.gguf"]).

(** Eight logical CPUs, the launcher in [/opt/runner], the model file in
    place, the server library installed. *)
Definition demo_host : Host :=
  {| script_file := ["opt"; "runner"; "launch_gemma_api.py"];
     path_exists := model_under_opt_runner;
     server_importable := true;
     cpu_count := 8 |}.

(** The same machine with the launcher kept under another name in the same
    directory. *)
Definition renamed_host : Host :=
  {| script_file := ["opt"; "runner"; "start.py"];
     path_exists := model_under_opt_runner;
     server_importable := true;
     cpu_count := 8 |}.

(** A machine with as many CPUs and the whole installation under
    [/srv/gemma]. *)
Definition relocated_host : Host :=
  {| script_file := ["srv"; "gemma"; "launch_gemma_api.py"];
     path_exists :=
       fun p => bool_decide (p = ["srv"; "gemma"; "Model"; "gemma-3-270m-it-Q8_0.gguf"]);
     server_importable := true;
     cpu_count := 8 |}.

(** [demo_host] before the model file was downloaded. *)
Definition host_without_model : Host :=
  {| script_file := ["opt"; "runner"; "launch_gemma_api.py"];
     path_exists := fun _ => false;
     server_importable := true;
     cpu_count := 8 |}.

(** [demo_host] before the server library was installed. *)
Definition host_without_library : Host :=
  {| script_file := ["opt"; "runner"; "launch_gemma_api.py"];
     path_exists := model_under_opt_runner;
     server_importable := false;
     cpu_count := 8 |}.

(** [demo_host] with a single logical CPU. *)
Definition single_cpu_host : Host :=
  {| script_file := ["opt"; "runner"; "launch_gemma_api.py"];
     path_exists := model_under_opt_runner;
     server_importable := true;
     cpu_count := 1 |}.

(** ** Sample faults *)

(** The server package is installed but its import raises: the shared
    library it wraps does not load. *)
Definition broken_library : Faults :=
  {| server_import_fault := Some (Raises "RuntimeError");
     cpu_count_fault := None;
     server_settings_fault := None;
     model_settings_fault := None;
     create_app_fault := None;
     uvicorn_import_fault := None;
     uvicorn_run_fault := None |}.

(** [create_app] raises: the model file does not load. *)
Definition model_load_fails : Faults :=
  {| server_import_fault := None;
     cpu_count_fault := None;
     server_settings_fault := None;
     model_settings_fault := None;
     create_app_fault := Some (Raises "ValueError");
     uvicorn_import_fault := None;
     uvicorn_run_fault := None |}.

(** [uvicorn] is not installed. *)
Definition uvicorn_missing : Faults :=
  {| server_import_fault := None;
     cpu_count_fault := None;
     server_settings_fault := None;
     model_settings_fault := None;
     create_app_fault := None;
     uvicorn_import_fault := Some (Raises "ModuleNotFoundError");
     uvicorn_run_fault := None |}.

(** A server library that leaves the TLS fields unset. *)
Definition no_default : gmap string string -> option string := fun _ => None.

(** ** The launcher *)

Section Launcher.

(** What the server library puts in the fields of [ServerSettings] that
    the caller does not pass.  The library may consult the process
    environment for them. *)
Variable default_ssl_keyfile : gmap string string -> option string.
Variable default_ssl_certfile : gmap string string -> option string.

(** [ServerSettings(host=..., port=..., interrupt_requests=...)] *)
Definition new_ServerSettings (host_ : string) (port_ : Z)
    (interrupt_requests_ : bool) : Proc ServerSettings :=
  env <- get_environ ;;
  let s := {| host := host_;
              port := port_;
              interrupt_requests := interrupt_requests_;
              ssl_keyfile := default_ssl_keyfile env;
              ssl_certfile := default_ssl_certfile env |} in
  emit (EServerSettings s) ;;;
  proc_ret s.

(** [ModelSettings(...)], every field of the record passed by keyword *)
Definition new_ModelSettings (m : ModelSettings) : Proc ModelSettings :=
  emit (EModelSettings m) ;;;
  proc_ret m.

(** [create_app(server_settings=..., model_settings=...)]: the call is made,
    and returns the app unless it ends abruptly. *)
Definition create_app (fault : option Abrupt) (server_settings : ServerSettings)
    (model_settings : list ModelSettings) : Proc App :=
  emit (ECreateApp server_settings model_settings) ;;;
  library_call fault
    (proc_ret {| app_server_settings := server_settings;
                 app_model_settings := model_settings |}).

(** [uvicorn.run(...)]: the call is made, and returns when the server is
    shut down unless it ends abruptly. *)
Definition uvicorn_run (fault : option Abrupt) (app : App)
    (host_ : string) (port_ : Z)
    (log_level : string) (keyfile certfile : option string) : Proc unit :=
  emit (EUvicornRun app host_ port_ log_level keyfile certfile) ;;;
  library_call fault (proc_ret tt).

Definition main (f : Faults) (h : Host) : Proc unit :=
  let project_root := parent (script_file h) in
  let model_path :=
    joinpath (joinpath project_root "Model") "gemma-3-270m-it-Q8_0.gguf" in

  (if negb (path_exists h model_path) then
     print_stderr (model_not_found_msg model_path) ;;;
     sys_exit 1
   else proc_ret tt) ;;;

  (if server_importable h then
     library_call (server_import_fault f) (emit EImportServer)
   else
     print_stderr missing_dependency_msg ;;;
     sys_exit 1) ;;;

  environ_setdefault "LLAMA_CUBLAS" "0" ;;;
  environ_setdefault "LLAMA_METAL" "0" ;;;
  environ_setdefault "CUDA_VISIBLE_DEVICES" "-1" ;;;

  cpu_count <- library_call (cpu_count_fault f) (proc_ret (cpu_count h)) ;;
  let inference_threads := Z.max (cpu_count - 1) 1 in

  server_settings <- library_call (server_settings_fault f)
    (new_ServerSettings "127.0.0.1" 54546 true) ;;

  model_settings <- library_call (model_settings_fault f) (new_ModelSettings
    {| model := path_str model_path;
       model_alias := "gemma-3-270m-it";
       chat_format := "gemma";
       n_ctx := 32768;
       n_gpu_layers := 0;
       n_threads := inference_threads;
       n_threads_batch := cpu_count;
       n_batch := 1024;
       n_ubatch := 1024;
       use_mmap := true;
       use_mlock := false;
       cache := true;
       cache_type := "ram";
       cache_size := Z.shiftl 4 30;
       offload_kqv := false;
       flash_attn := false;
       logits_all := false;
       verbose := true |}) ;;

  app <- create_app (create_app_fault f) server_settings [model_settings] ;;

  library_call (uvicorn_import_fault f) (emit EImportUvicorn) ;;;

  uvicorn_run (uvicorn_run_fault f) app
    (host server_settings)
    (port server_settings)
    "info"
    (ssl_keyfile server_settings)
    (ssl_certfile server_settings).

(** A run of the launcher as a fresh process, nothing having happened yet,
    under the faults [f]. *)
Definition run (f : Faults) (h : Host) (env : gmap string string)
    : Outcome unit * World :=
  main f h {| environ := env; trace := [] |}.

Definition run_outcome (f : Faults) (h : Host) (env : gmap string string)
    : Outcome unit :=
  fst (run f h env).

Definition run_trace (f : Faults) (h : Host) (env : gmap string string)
    : list Event :=
  trace (snd (run f h env)).

Definition run_environ (f : Faults) (h : Host) (env : gmap string string)
    : gmap string string :=
  environ (snd (run f h env)).

(** The run on which every call into a library returns. *)
Definition launch (h : Host) (env : gmap string string) : Outcome unit * World :=
  main no_faults h {| environ := env; trace := [] |}.

Definition launch_outcome (h : Host) (env : gmap string string) : Outcome unit :=
  fst (launch h env).

Definition launch_trace (h : Host) (env : gmap string string) : list Event :=
  trace (snd (launch h env)).

Definition launch_environ (h : Host) (env : gmap string string) : gmap string string :=
  environ (snd (launch h env)).

(** The objects [main] builds once both guards are passed, as functions of
    what they depend on. *)
Definition launcher_server_settings (env : gmap string string) : ServerSettings :=
  {| host := "127.0.0.1";
     port := 54546;
     interrupt_requests := true;
     ssl_keyfile := default_ssl_keyfile env;
     ssl_certfile := default_ssl_certfile env |}.

Definition launcher_model_settings (h : Host) : ModelSettings :=
  {| model := path_str (model_file h);
     model_alias := "gemma-3-270m-it";
     chat_format := "gemma";
     n_ctx := 32768;
     n_gpu_layers := 0;
     n_threads := Z.max (cpu_count h - 1) 1;
     n_threads_batch := cpu_count h;
     n_batch := 1024;
     n_ubatch := 1024;
     use_mmap := true;
     use_mlock := false;
     cache := true;
     cache_type := "ram";
     cache_size := 4294967296;
     offload_kqv := false;
     flash_attn := false;
     logits_all := false;
     verbose := true |}.

Definition startup_events (h : Host) (env : gmap string string) : list Event :=
  let s := launcher_server_settings env in
  let m := launcher_model_settings h in
  [EServerSettings s; EModelSettings m; ECreateApp s [m]; EImportUvicorn;
   EUvicornRun {| app_server_settings := s; app_model_settings := [m] |}
     (host s) (port s) "info" (ssl_keyfile s) (ssl_certfile s)].

(** ** Running the launcher *)

Lemma bind_run {A B} (m : Proc A) (k : A -> Proc B) (w : World) :
  proc_bind m k w =
  match m w with
  | (Returned a, w') => k a w'
  | (SystemExit c, w') => (SystemExit c, w')
  | (Uncaught e, w') => (Uncaught e, w')
  end.
Proof. reflexivity. Qed.

Lemma environ_setdefault_run (key default : string) (w : World) :
  environ_setdefault key default w =
  (Returned (setdefault_value default (environ w !! key)),
   {| environ := setdefault_env key default (environ w);
      trace := trace w ++ setdefault_log key default (environ w) |}).
Proof.
  unfold environ_setdefault, setdefault_value, setdefault_env, setdefault_log.
  destruct (environ w !! key); [|reflexivity].
  rewrite app_nil_r. by destruct w.
Qed.

Lemma emit_run (e : Event) (w : World) :
  emit e w = (Returned tt, {| environ := environ w; trace := trace w ++ [e] |}).
Proof. reflexivity. Qed.

Lemma setdefault_env_lookup (k d k' : string) (env : gmap string string) :
  setdefault_env k d env !! k' =
  if decide (k = k') then Some (setdefault_value d (env !! k)) else env !! k'.
Proof.
  unfold setdefault_env, setdefault_value.
  destruct (env !! k) eqn:Hk; case_decide; subst; try done.
  - by rewrite lookup_insert_eq.
  - by rewrite lookup_insert_ne.
Qed.

Lemma setdefault_log_frame (k d k' d' : string) (env : gmap string string) :
  k <> k' ->
  setdefault_log k' d' (setdefault_env k d env) = setdefault_log k' d' env.
Proof.
  intros Hne. unfold setdefault_log.
  rewrite setdefault_env_lookup. by case_decide.
Qed.

Ltac run_step :=
  rewrite bind_run; rewrite ?environ_setdefault_run, ?emit_run;
  cbn [proc_ret get_environ sys_exit print_stderr trace environ app].

Ltac flatten_trace := repeat (cbn [app]; rewrite <- ?app_assoc).

Lemma abort_run {A} (a : Abrupt) (w : World) :
  abort (A := A) a w =
  (match a with Raises exc => Uncaught exc | Exits c => SystemExit c end, w).
Proof. reflexivity. Qed.

(** A call that ends abruptly ends the run. *)
Lemma bind_abort {A B} (a : Abrupt) (k : A -> Proc B) (w : World) :
  proc_bind (abort a) k w =
  (match a with Raises exc => Uncaught exc | Exits c => SystemExit c end, w).
Proof. rewrite bind_run, abort_run. by destruct a. Qed.

Ltac resume :=
  cbn [library_call]; rewrite ?emit_run;
  cbn [proc_ret get_environ trace environ app]; repeat run_step.

Ltac fault_stops a :=
  cbn [library_call]; rewrite ?bind_abort, ?abort_run; destruct a;
  flatten_trace; rewrite ?app_nil_r; reflexivity.

(** The run that stops at the first guard, whatever the faults. *)
Lemma run_no_model (f : Faults) (h : Host) (env : gmap string string) :
  path_exists h (model_file h) = false ->
  run f h env =
  (SystemExit 1,
   {| environ := env;
      trace := [EPrintErr (model_not_found_msg (model_file h))] |}).
Proof.
  intros Hfile. unfold run, main. fold (model_file h).
  rewrite bind_run, Hfile. cbn [negb]. unfold print_stderr.
  run_step. reflexivity.
Qed.

(** The run that stops at the second guard, whatever the faults. *)
Lemma run_no_library (f : Faults) (h : Host) (env : gmap string string) :
  path_exists h (model_file h) = true ->
  server_importable h = false ->
  run f h env =
  (SystemExit 1,
   {| environ := env; trace := [EPrintErr missing_dependency_msg] |}).
Proof.
  intros Hfile Himp. unfold run, main. fold (model_file h).
  rewrite bind_run, Hfile. cbn [negb proc_ret].
  rewrite Himp. unfold print_stderr. do 2 run_step. reflexivity.
Qed.

(** The run on which the import of the server library raises something the
    guard does not catch. *)
Lemma run_import_fault (f : Faults) (h : Host) (env : gmap string string)
    (a : Abrupt) :
  path_exists h (model_file h) = true ->
  server_importable h = true ->
  server_import_fault f = Some a ->
  run f h env = (abrupt_outcome a, {| environ := env; trace := [] |}).
Proof.
  intros Hfile Himp Hfault. unfold run, main. fold (model_file h).
  rewrite bind_run, Hfile. cbn [negb proc_ret].
  rewrite Himp, Hfault. cbn [library_call]. by rewrite bind_abort.
Qed.

(** The run past both guards and the import: the defaults are applied and
    the start-up goes as far as the faults let it. *)
Lemma run_ok (f : Faults) (h : Host) (env : gmap string string) :
  path_exists h (model_file h) = true ->
  server_importable h = true ->
  server_import_fault f = None ->
  run f h env =
  (match first_startup_fault f with
   | Some a => abrupt_outcome a
   | None => Returned tt
   end,
   {| environ := environ_with_defaults env;
      trace := EImportServer :: default_writes env
                 ++ firstn (startup_progress f)
                      (startup_events h (environ_with_defaults env)) |}).
Proof.
  intros Hfile Himp Hfault. unfold run, main. fold (model_file h).
  rewrite bind_run, Hfile. cbn [negb proc_ret].
  rewrite Himp, Hfault. cbn [library_call]. do 4 run_step.
  rewrite !setdefault_log_frame by discriminate.
  unfold first_startup_fault, startup_progress, default_writes, gpu_env_defaults.
  cbn [flat_map fst snd]. rewrite app_nil_r.
  unfold new_ServerSettings, new_ModelSettings, create_app, uvicorn_run.
  destruct (cpu_count_fault f) as [a|]; [fault_stops a|]. resume.
  destruct (server_settings_fault f) as [a|]; [fault_stops a|]. resume.
  destruct (model_settings_fault f) as [a|]; [fault_stops a|]. resume.
  destruct (create_app_fault f) as [a|]; [fault_stops a|]. resume.
  destruct (uvicorn_import_fault f) as [a|]; [fault_stops a|]. resume.
  destruct (uvicorn_run_fault f) as [a|]; [fault_stops a|]. resume.
  flatten_trace. reflexivity.
Qed.

Lemma launch_is_run (h : Host) (env : gmap string string) :
  launch h env = run no_faults h env.
Proof. reflexivity. Qed.

(** The run that stops at the first guard. *)
Lemma launch_no_model (h : Host) (env : gmap string string) :
  path_exists h (model_file h) = false ->
  launch h env =
  (SystemExit 1,
   {| environ := env;
      trace := [EPrintErr (model_not_found_msg (model_file h))] |}).
Proof. rewrite launch_is_run. apply run_no_model. Qed.

(** The run that stops at the second guard. *)
Lemma launch_no_library (h : Host) (env : gmap string string) :
  path_exists h (model_file h) = true ->
  server_importable h = false ->
  launch h env =
  (SystemExit 1,
   {| environ := env; trace := [EPrintErr missing_dependency_msg] |}).
Proof. rewrite launch_is_run. apply run_no_library. Qed.

(** The run that passes both guards. *)
Lemma launch_ok (h : Host) (env : gmap string string) :
  path_exists h (model_file h) = true ->
  server_importable h = true ->
  launch h env =
  (Returned tt,
   {| environ := environ_with_defaults env;
      trace := EImportServer :: default_writes env
                 ++ startup_events h (environ_with_defaults env) |}).
Proof.
  intros Hfile Himp. rewrite launch_is_run.
  by rewrite run_ok.
Qed.

(** The three shapes a run can take. *)
Lemma launch_cases (h : Host) (env : gmap string string) :
  (passes_guards h = false /\
   launch_outcome h env = SystemExit 1 /\
   launch_environ h env = env /\
   exists msg, launch_trace h env = [EPrintErr msg])
  \/
  (passes_guards h = true /\
   launch_outcome h env = Returned tt /\
   launch_environ h env = environ_with_defaults env /\
   launch_trace h env =
     EImportServer :: default_writes env
       ++ startup_events h (environ_with_defaults env)).
Proof.
  unfold passes_guards, launch_outcome, launch_environ, launch_trace.
  destruct (path_exists h (model_file h)) eqn:Hfile.
  - destruct (server_importable h) eqn:Himp.
    + right. by rewrite launch_ok.
    + left. rewrite launch_no_library by done. eauto.
  - left. rewrite launch_no_model by done. eauto.
Qed.

(** The four shapes a run can take under faults. *)
Lemma run_cases (f : Faults) (h : Host) (env : gmap string string) :
  (path_exists h (model_file h) = false /\
   run f h env =
   (SystemExit 1,
    {| environ := env;
       trace := [EPrintErr (model_not_found_msg (model_file h))] |}))
  \/
  (path_exists h (model_file h) = true /\ server_importable h = false /\
   run f h env =
   (SystemExit 1,
    {| environ := env; trace := [EPrintErr missing_dependency_msg] |}))
  \/
  (passes_guards h = true /\
   exists a, server_import_fault f = Some a /\
             run f h env = (abrupt_outcome a, {| environ := env; trace := [] |}))
  \/
  (passes_guards h = true /\ server_import_fault f = None /\
   run f h env =
   (match first_startup_fault f with
    | Some a => abrupt_outcome a
    | None => Returned tt
    end,
    {| environ := environ_with_defaults env;
       trace := EImportServer :: default_writes env
                  ++ firstn (startup_progress f)
                       (startup_events h (environ_with_defaults env)) |})).
Proof.
  unfold passes_guards.
  destruct (path_exists h (model_file h)) eqn:Hfile;
    [|left; split; [done|]; by apply run_no_model].
  destruct (server_importable h) eqn:Himp;
    [|right; left; do 2 (split; [done|]); by apply run_no_library].
  destruct (server_import_fault f) as [a|] eqn:Hfault.
  - right; right; left. split; [done|]. exists a. split; [done|].
    by apply run_import_fault.
  - right; right; right. do 2 (split; [done|]). by apply run_ok.
Qed.

(** ** The environment defaults *)

Lemma default_writes_spec (env : gmap string string) (k v : string) :
  In (ESetEnv k v) (default_writes env) <->
  In (k, v) gpu_env_defaults /\ env !! k = None.
Proof.
  unfold default_writes. rewrite in_flat_map. split.
  - intros [[k' d'] [Hin Hlog]]. unfold setdefault_log in Hlog.
    cbn [fst snd] in Hlog. destruct (env !! k') eqn:Hk'; [destruct Hlog|].
    destruct Hlog as [[= <- <-]|[]]. by split.
  - intros [Hin Hnone]. exists (k, v). split; [done|].
    unfold setdefault_log. cbn [fst snd]. rewrite Hnone. by left.
Qed.

Lemma default_writes_are_writes (env : gmap string string) (e : Event) :
  In e (default_writes env) -> exists k v, e = ESetEnv k v.
Proof.
  unfold default_writes. rewrite in_flat_map.
  intros [[k d] [_ Hlog]]. unfold setdefault_log in Hlog.
  destruct (env !! (k, d).1); [destruct Hlog|].
  destruct Hlog as [<-|[]]. eauto.
Qed.

Lemma environ_with_defaults_present (env : gmap string string) (k v : string) :
  env !! k = Some v -> environ_with_defaults env !! k = Some v.
Proof.
  intros Hk. unfold environ_with_defaults, gpu_env_defaults.
  cbn [foldl fst snd]. rewrite !setdefault_env_lookup.
  repeat case_decide; subst; rewrite ?Hk; try done.
Qed.

Lemma environ_with_defaults_absent (env : gmap string string) (k d : string) :
  In (k, d) gpu_env_defaults -> env !! k = None ->
  environ_with_defaults env !! k = Some d.
Proof.
  intros Hin Hk. unfold environ_with_defaults.
  unfold gpu_env_defaults in *. cbn [foldl fst snd].
  rewrite !setdefault_env_lookup.
  destruct Hin as [[= <- <-]|[[= <- <-]|[[= <- <-]|[]]]];
    repeat case_decide; rewrite ?Hk; done.
Qed.

Lemma environ_with_defaults_other (env : gmap string string) (k : string) :
  (forall d, ~ In (k, d) gpu_env_defaults) ->
  environ_with_defaults env !! k = env !! k.
Proof.
  intros Hk. unfold environ_with_defaults.
  unfold gpu_env_defaults in *. cbn [foldl fst snd].
  rewrite !setdefault_env_lookup.
  repeat case_decide; subst; try done; exfalso; eapply Hk; simpl; eauto.
Qed.

(** ** What a trace can contain *)

Lemma launch_trace_inv (h : Host) (env : gmap string string) (e : Event) :
  In e (launch_trace h env) ->
  (passes_guards h = false /\ exists msg, e = EPrintErr msg)
  \/
  (passes_guards h = true /\
   (e = EImportServer
    \/ (exists k v, e = ESetEnv k v /\ In (k, v) gpu_env_defaults /\ env !! k = None)
    \/ In e (startup_events h (environ_with_defaults env)))).
Proof.
  destruct (launch_cases h env) as [(Hg & _ & _ & msg & ->)|(Hg & _ & _ & ->)].
  - intros [<-|[]]. left. eauto.
  - intros [<-|Hin]; right; (split; [done|]); [by left|].
    apply in_app_or in Hin as [Hin|Hin]; [|by right; right].
    right; left.
    destruct (default_writes_are_writes _ _ Hin) as (k & v & ->).
    apply default_writes_spec in Hin. eauto.
Qed.

(** Inversion of [In e (launch_trace h env)] for an event [e] of known
    shape: the impossible origins are discarded, the matching one is left as
    an equation. *)
Ltac trace_inv H :=
  apply launch_trace_inv in H;
  destruct H as [(_ & ? & H) | (? & [H | [(? & ? & H & ? & ?) | H]])];
  [ .. | cbn [startup_events In] in H; repeat destruct H as [H | H] ];
  try contradiction; simplify_eq.

Lemma server_settings_built (h : Host) (env : gmap string string)
    (s : ServerSettings) :
  In (EServerSettings s) (launch_trace h env) ->
  passes_guards h = true /\
  s = launcher_server_settings (environ_with_defaults env).
Proof. intros Hin. trace_inv Hin. done. Qed.

Lemma model_settings_built (h : Host) (env : gmap string string)
    (m : ModelSettings) :
  In (EModelSettings m) (launch_trace h env) ->
  passes_guards h = true /\ m = launcher_model_settings h.
Proof. intros Hin. trace_inv Hin. done. Qed.

Lemma create_app_called (h : Host) (env : gmap string string)
    (s : ServerSettings) (ms : list ModelSettings) :
  In (ECreateApp s ms) (launch_trace h env) ->
  passes_guards h = true /\
  s = launcher_server_settings (environ_with_defaults env) /\
  ms = [launcher_model_settings h].
Proof. intros Hin. trace_inv Hin. done. Qed.

Lemma uvicorn_run_called (h : Host) (env : gmap string string)
    (a : App) (bh : string) (bp : Z) (ll : string) (kf cf : option string) :
  In (EUvicornRun a bh bp ll kf cf) (launch_trace h env) ->
  passes_guards h = true /\
  let s := launcher_server_settings (environ_with_defaults env) in
  a = {| app_server_settings := s;
         app_model_settings := [launcher_model_settings h] |} /\
  bh = host s /\ bp = port s /\ ll = "info" /\
  kf = ssl_keyfile s /\ cf = ssl_certfile s.
Proof. intros Hin. trace_inv Hin. done. Qed.

Lemma env_write_performed (h : Host) (env : gmap string string) (k v : string) :
  In (ESetEnv k v) (launch_trace h env) ->
  passes_guards h = true /\ In (k, v) gpu_env_defaults /\ env !! k = None.
Proof. intros Hin. trace_inv Hin. done. Qed.

Lemma passes_guards_true (h : Host) :
  passes_guards h = true <->
  path_exists h (model_file h) = true /\ server_importable h = true.
Proof. unfold passes_guards. apply andb_true_iff. Qed.

(** On a host that passes the guards the whole start-up sequence is in the
    trace. *)
Lemma startup_in_trace (h : Host) (env : gmap string string) (e : Event) :
  passes_guards h = true ->
  In e (startup_events h (environ_with_defaults env)) ->
  In e (launch_trace h env).
Proof.
  intros Hg Hin.
  destruct (launch_cases h env) as [(Hg' & _)|(_ & _ & _ & ->)]; [congruence|].
  right. apply in_or_app. by right.
Qed.

(** Where a write to the environment sits in a trace made of the import,
    the writes and the start-up events. *)
Lemma write_position (W T pre post : list Event) (k v : string) :
  (forall e, In e W -> exists k' v', e = ESetEnv k' v') ->
  (forall e, In e T -> is_startup e = true) ->
  EImportServer :: W ++ T = pre ++ ESetEnv k v :: post ->
  In EImportServer pre /\
  (forall e, In e pre -> is_startup e = false) /\
  (forall e, In e T -> In e post).
Proof.
  intros HW HT Heq. destruct pre as [|p pre]; [discriminate Heq|].
  injection Heq as <- Heq.
  apply app_eq_app in Heq as [l [[-> Hl]|[-> Hl]]].
  - split; [by left|]. split.
    + intros e [<-|Hin]; [done|].
      destruct (HW e) as (k' & v' & ->); [|done].
      apply in_or_app. by left.
    + destruct l as [|x l]; cbn [app] in Hl.
      * specialize (HT (ESetEnv k v)). rewrite <- Hl in HT.
        discriminate HT. by left.
      * injection Hl as _ ->. intros e Hin. apply in_or_app. by right.
  - specialize (HT (ESetEnv k v)). discriminate HT.
    rewrite Hl. apply in_or_app. right. by left.
Qed.

Lemma startup_events_are_startup (h : Host) (env : gmap string string) (e : Event) :
  In e (startup_events h env) -> is_startup e = true.
Proof.
  cbn [startup_events In]. intros Hin.
  repeat destruct Hin as [<-|Hin]; try done.
Qed.

(** ** Runs under faults *)

Lemma in_firstn {A} (n : nat) (l : list A) (x : A) :
  In x (firstn n l) -> In x l.
Proof.
  intros Hin. rewrite <- (firstn_skipn n l). apply in_or_app. by left.
Qed.

Lemma run_reaches_defaults (f : Faults) (h : Host) (env : gmap string string) :
  passes_guards h = true ->
  server_import_fault f = None ->
  run_outcome f h env =
    match first_startup_fault f with
    | Some a => abrupt_outcome a
    | None => Returned tt
    end /\
  run_environ f h env = environ_with_defaults env /\
  run_trace f h env =
    EImportServer :: default_writes env
      ++ firstn (startup_progress f)
           (startup_events h (environ_with_defaults env)).
Proof.
  intros Hg Hfault. apply passes_guards_true in Hg as [Hfile Himp].
  unfold run_outcome, run_environ, run_trace. by rewrite run_ok.
Qed.

(** Whatever the faults, the events of a run are an initial segment of the
    events of the run on which every call returns. *)
Lemma run_trace_prefix (f : Faults) (h : Host) (env : gmap string string) :
  run_trace f h env `prefix_of` launch_trace h env.
Proof.
  unfold run_trace, launch_trace.
  destruct (run_cases f h env)
    as [(Hfile & ->)|[(Hfile & Himp & ->)|[(Hg & a & _ & ->)|(Hg & _ & ->)]]].
  - by rewrite launch_no_model.
  - by rewrite launch_no_library.
  - apply prefix_nil.
  - apply passes_guards_true in Hg as [Hfile Himp].
    rewrite launch_ok by done. cbn [snd trace].
    exists (skipn (startup_progress f)
              (startup_events h (environ_with_defaults env))).
    rewrite <- (firstn_skipn (startup_progress f)
                  (startup_events h (environ_with_defaults env))) at 1.
    by rewrite app_comm_cons, !app_assoc.
Qed.

Lemma run_trace_in_launch (f : Faults) (h : Host) (env : gmap string string)
    (e : Event) :
  In e (run_trace f h env) -> In e (launch_trace h env).
Proof.
  intros Hin. destruct (run_trace_prefix f h env) as [k ->].
  apply in_or_app. by left.
Qed.

(** Anything but a diagnostic occurs after the import of the server
    library. *)
Lemma run_past_import (f : Faults) (h : Host) (env : gmap string string)
    (e : Event) :
  In e (run_trace f h env) ->
  (forall msg, e <> EPrintErr msg) ->
  passes_guards h = true /\ server_import_fault f = None.
Proof.
  unfold run_trace. intros Hin Hne.
  destruct (run_cases f h env)
    as [(_ & Hrun)|[(_ & _ & Hrun)|[(_ & a & _ & Hrun)|(Hg & Hfault & _)]]];
    [| | |done]; rewrite Hrun in Hin; cbn [snd trace In] in Hin.
  - destruct Hin as [<-|[]]. by eelim Hne.
  - destruct Hin as [<-|[]]. by eelim Hne.
  - destruct Hin.
Qed.

Lemma run_environ_cases (f : Faults) (h : Host) (env : gmap string string) :
  run_environ f h env = env \/
  run_environ f h env = environ_with_defaults env.
Proof.
  unfold run_environ.
  destruct (run_cases f h env)
    as [(_ & ->)|[(_ & _ & ->)|[(_ & a & _ & ->)|(_ & _ & ->)]]]; auto.
Qed.

(** A start-up event is in a trace made of the import, the writes and some
    start-up events exactly when it is among the latter. *)
Lemma in_startup_part (env : gmap string string) (l : list Event) (e : Event) :
  is_startup e = true ->
  In e (EImportServer :: default_writes env ++ l) <-> In e l.
Proof.
  intros He. split.
  - intros [<-|Hin]; [discriminate He|].
    apply in_app_or in Hin as [Hin|Hin]; [|done].
    apply default_writes_are_writes in Hin as (k & v & ->). discriminate He.
  - intros Hin. right. apply in_or_app. by right.
Qed.

(** A start-up event is in the trace of a run exactly when the run has
    passed the import and got as far as the event. *)
Lemma startup_event_in_run (f : Faults) (h : Host) (env : gmap string string)
    (e : Event) :
  is_startup e = true ->
  In e (run_trace f h env) <->
  passes_guards h = true /\ server_import_fault f = None /\
  In e (firstn (startup_progress f)
          (startup_events h (environ_with_defaults env))).
Proof.
  intros He. split.
  - intros Hin.
    destruct (run_past_import f h env e Hin) as [Hg Hfault];
      [intros msg ->; discriminate He|].
    do 2 (split; [done|]).
    destruct (run_reaches_defaults f h env Hg Hfault) as (_ & _ & Htr).
    rewrite Htr in Hin. by apply in_startup_part in Hin.
  - intros (Hg & Hfault & Hin).
    destruct (run_reaches_defaults f h env Hg Hfault) as (_ & _ & ->).
    by apply in_startup_part.
Qed.

(** In an initial segment of the start-up, the call of [create_app] comes
    with the two settings objects it is given. *)
Lemma startup_events_closed (h : Host) (env : gmap string string) (n : nat)
    (s : ServerSettings) (ms : list ModelSettings) :
  In (ECreateApp s ms) (firstn n (startup_events h env)) ->
  In (EServerSettings s) (firstn n (startup_events h env)) /\
  exists m, ms = [m] /\ In (EModelSettings m) (firstn n (startup_events h env)).
Proof.
  unfold startup_events.
  destruct n as [|[|[|[|[|[|n]]]]]]; cbn [firstn In]; intros Hin;
    repeat destruct Hin as [Hin|Hin]; try done.
  all: injection Hin as <- <-; split; [tauto|]; eexists; split; [done|]; tauto.
Qed.

(** and the run of the server comes with the call of [create_app] for its
    app. *)
Lemma startup_events_ordered (h : Host) (env : gmap string string) (n : nat) :
  let s := launcher_server_settings env in
  let m := launcher_model_settings h in
  In (EUvicornRun {| app_server_settings := s; app_model_settings := [m] |}
        (host s) (port s) "info" (ssl_keyfile s) (ssl_certfile s))
     (firstn n (startup_events h env)) ->
  In (ECreateApp s [m]) (firstn n (startup_events h env)).
Proof.
  unfold startup_events.
  destruct n as [|[|[|[|[|[|n]]]]]]; cbn [firstn In]; intros Hin;
    repeat destruct Hin as [Hin|Hin]; try done; tauto.
Qed.

(** ** The claims *)

(** C1. For every detected CPU count [C >= 1], every model configuration the
    launcher builds has [n_threads = max (C - 1) 1], which is at least 1, and
    [n_threads_batch = C]; on a host that passes both guards such a
    configuration is built and handed to [create_app]. *)
Theorem thread_pools_from_cpu_count (h : Host) (env : gmap string string) :
  1 <= cpu_count h ->
  (forall m, In (EModelSettings m) (launch_trace h env) ->
     n_threads m = Z.max (cpu_count h - 1) 1 /\
     1 <= n_threads m /\
     n_threads_batch m = cpu_count h)
  /\
  (passes_guards h = true ->
   exists s m, In (EModelSettings m) (launch_trace h env) /\
               In (ECreateApp s [m]) (launch_trace h env)).
Proof.
  intros Hcpu. split.
  - intros m Hin. apply model_settings_built in Hin as [_ ->].
    cbn [launcher_model_settings n_threads n_threads_batch]. lia.
  - intros Hg.
    exists (launcher_server_settings (environ_with_defaults env)),
           (launcher_model_settings h).
    split; apply startup_in_trace; try done; cbn [startup_events In]; tauto.
Qed.

(** C2. When the model file is missing the launcher prints one diagnostic to
    the error stream and exits with status 1, and that is all it does: the
    environment is as it was, and no variable is written, no settings object
    built, no app created, no server run. *)
Theorem missing_model_exits_before_any_effect (h : Host) (env : gmap string string) :
  path_exists h (model_file h) = false ->
  launch_outcome h env = SystemExit 1 /\
  exit_status (launch_outcome h env) = 1 /\
  launch_trace h env = [EPrintErr (model_not_found_msg (model_file h))] /\
  launch_environ h env = env /\
  (forall k v, ~ In (ESetEnv k v) (launch_trace h env)) /\
  (forall s, ~ In (EServerSettings s) (launch_trace h env)) /\
  (forall m, ~ In (EModelSettings m) (launch_trace h env)) /\
  (forall s ms, ~ In (ECreateApp s ms) (launch_trace h env)) /\
  (forall a bh bp ll kf cf, ~ In (EUvicornRun a bh bp ll kf cf) (launch_trace h env)).
Proof.
  intros Hfile.
  unfold launch_outcome, launch_trace, launch_environ.
  rewrite launch_no_model by done. cbn [fst snd trace environ exit_status].
  repeat split; try done; intros; intros [Hin|[]]; discriminate Hin.
Qed.

(** C3. Whatever the host and its environment, every model configuration the
    launcher builds has [n_gpu_layers = 0] and [n_ctx = 32768], and every
    server configuration it builds has the loopback address as [host]; on a
    host that passes both guards both objects are built. *)
Theorem cpu_only_fixed_context_loopback (h : Host) (env : gmap string string) :
  (forall m, In (EModelSettings m) (launch_trace h env) ->
     n_gpu_layers m = 0 /\ n_ctx m = 32768)
  /\
  (forall s, In (EServerSettings s) (launch_trace h env) ->
     host s = "127.0.0.1")
  /\
  (passes_guards h = true ->
   exists s m, In (EServerSettings s) (launch_trace h env) /\
               In (EModelSettings m) (launch_trace h env)).
Proof.
  split; [|split].
  - intros m Hin. by apply model_settings_built in Hin as [_ ->].
  - intros s Hin. by apply server_settings_built in Hin as [_ ->].
  - intros Hg.
    exists (launcher_server_settings (environ_with_defaults env)),
           (launcher_model_settings h).
    split; apply startup_in_trace; try done; cbn [startup_events In]; tauto.
Qed.

(** C4, amended. On a run on which the server library has been imported
    (the model file is then present), each of the three GPU variables is
    written with its disabled value exactly when it was absent, and then
    holds that value.  On every run, the launcher writes nothing but a GPU
    default to an absent variable, a variable that was present keeps the
    caller's value, and every other variable is as it was.  When the model
    file is absent no variable is written.  Nothing is said of the three
    variables on a run on which the import fails. *)
Theorem gpu_defaults_fill_absent_variables
    (f : Faults) (h : Host) (env : gmap string string) :
  (In EImportServer (run_trace f h env) ->
   forall k d,
     In (k, d) [("LLAMA_CUBLAS", "0"); ("LLAMA_METAL", "0");
                ("CUDA_VISIBLE_DEVICES", "-1")] ->
     (In (ESetEnv k d) (run_trace f h env) <-> env !! k = None) /\
     (env !! k = None -> run_environ f h env !! k = Some d))
  /\
  (forall k v, In (ESetEnv k v) (run_trace f h env) ->
     In (k, v) [("LLAMA_CUBLAS", "0"); ("LLAMA_METAL", "0");
                ("CUDA_VISIBLE_DEVICES", "-1")] /\
     env !! k = None)
  /\
  (forall k v, env !! k = Some v -> run_environ f h env !! k = Some v)
  /\
  (forall k, k <> "LLAMA_CUBLAS" -> k <> "LLAMA_METAL" ->
     k <> "CUDA_VISIBLE_DEVICES" ->
     run_environ f h env !! k = env !! k)
  /\
  (path_exists h (model_file h) = false ->
   run_environ f h env = env /\
   forall k v, ~ In (ESetEnv k v) (run_trace f h env)).
Proof.
  split; [|split; [|split; [|split]]].
  - intros Himp k d Hin.
    apply run_past_import in Himp as [Hg Hfault]; [|done].
    destruct (run_reaches_defaults f h env Hg Hfault) as (_ & -> & ->).
    split; [split|].
    + intros [Hw|Hw]; [discriminate Hw|].
      apply in_app_or in Hw as [Hw|Hw].
      * by apply default_writes_spec in Hw as [_ ?].
      * apply in_firstn, startup_events_are_startup in Hw. discriminate Hw.
    + intros Hk. right. apply in_or_app. left. by apply default_writes_spec.
    + intros Hk. by apply environ_with_defaults_absent.
  - intros k v Hw. apply run_trace_in_launch in Hw.
    by apply env_write_performed in Hw as (_ & ? & ?).
  - intros k v Hk. destruct (run_environ_cases f h env) as [->| ->]; [done|].
    by apply environ_with_defaults_present.
  - intros k H1 H2 H3.
    destruct (run_environ_cases f h env) as [->| ->]; [done|].
    apply environ_with_defaults_other. intros d Hin.
    cbn [gpu_env_defaults In] in Hin.
    destruct Hin as [[= <- _]|[[= <- _]|[[= <- _]|[]]]]; done.
  - intros Hfile. unfold run_environ, run_trace.
    rewrite run_no_model by done. cbn [snd environ trace]. split; [done|].
    intros k v [Hin|[]]. discriminate Hin.
Qed.

(** C6, amended. When the model file is there and the import of the server
    library raises [ImportError], the launcher exits with status 1 after
    printing to the error stream one diagnostic, whose second line gives the
    [pip install] command with the package name in double quotes (character
    34); character 10 is the line break. *)
Theorem missing_library_exits_with_install_command
    (f : Faults) (h : Host) (env : gmap string string) :
  path_exists h (model_file h) = true ->
  server_importable h = false ->
  run_outcome f h env = SystemExit 1 /\
  exit_status (run_outcome f h env) = 1 /\
  exists msg,
    run_trace f h env = [EPrintErr msg] /\
    msg = "[!] Missing dependency: llama-cpp-python with server extras."
          +:+ String (ascii_of_nat 10)
                ("    Install it with: pip install "
                 +:+ String (ascii_of_nat 34)
                       ("llama-cpp-python[server]"
                        +:+ String (ascii_of_nat 34) EmptyString)) /\
    contains ("pip install "
              +:+ String (ascii_of_nat 34)
                    ("llama-cpp-python[server]"
                     +:+ String (ascii_of_nat 34) EmptyString)) msg.
Proof.
  intros Hfile Himp. unfold run_outcome, run_trace.
  rewrite run_no_library by done. cbn [fst snd trace exit_status].
  split; [done|]. split; [done|].
  exists missing_dependency_msg. split; [done|]. split; [reflexivity|].
  exists ("[!] Missing dependency: llama-cpp-python with server extras."
          +:+ String (ascii_of_nat 10) "    Install it with: "), EmptyString.
  reflexivity.
Qed.

(** C7. Whatever the host and its environment, every server configuration
    the launcher builds, and the one it hands to [create_app], has
    [interrupt_requests] set; on a host that passes both guards one is built
    and handed over. *)
Theorem request_interruption_enabled (h : Host) (env : gmap string string) :
  (forall s, In (EServerSettings s) (launch_trace h env) ->
     interrupt_requests s = true)
  /\
  (forall s ms, In (ECreateApp s ms) (launch_trace h env) ->
     interrupt_requests s = true)
  /\
  (passes_guards h = true ->
   exists s ms, In (EServerSettings s) (launch_trace h env) /\
                In (ECreateApp s ms) (launch_trace h env)).
Proof.
  split; [|split].
  - intros s Hin. by apply server_settings_built in Hin as [_ ->].
  - intros s ms Hin. by apply create_app_called in Hin as (_ & -> & _).
  - intros Hg.
    exists (launcher_server_settings (environ_with_defaults env)),
           [launcher_model_settings h].
    split; apply startup_in_trace; try done; cbn [startup_events In]; tauto.
Qed.

(** C8. Whatever the host and its environment, every model configuration the
    launcher builds has the cache enabled, kept in RAM, and bounded by
    4 GiB = 4 * 2^30 = 4294967296 bytes; on a host that passes both guards
    one is built. *)
Theorem cache_policy_fixed (h : Host) (env : gmap string string) :
  (forall m, In (EModelSettings m) (launch_trace h env) ->
     cache m = true /\ cache_type m = "ram" /\
     cache_size m = 4 * 2 ^ 30 /\ cache_size m = 4294967296)
  /\
  (passes_guards h = true ->
   exists m, In (EModelSettings m) (launch_trace h env)).
Proof.
  split.
  - intros m Hin. by apply model_settings_built in Hin as [_ ->].
  - intros Hg. exists (launcher_model_settings h).
    apply startup_in_trace; try done; cbn [startup_events In]; tauto.
Qed.

(** C9. Every call of the HTTP runner gets its host, port, TLS key and TLS
    certificate from the fields of the server configuration the launcher
    built and handed to [create_app]; its host and port are the fixed
    endpoint 127.0.0.1:54546.  On a host that passes both guards the runner
    is called. *)
Theorem server_runs_on_configured_endpoint (h : Host) (env : gmap string string) :
  (forall a bh bp ll kf cf,
     In (EUvicornRun a bh bp ll kf cf) (launch_trace h env) ->
     exists s,
       In (EServerSettings s) (launch_trace h env) /\
       In (ECreateApp s (app_model_settings a)) (launch_trace h env) /\
       app_server_settings a = s /\
       bh = host s /\ bp = port s /\
       kf = ssl_keyfile s /\ cf = ssl_certfile s /\
       bh = "127.0.0.1" /\ bp = 54546)
  /\
  (passes_guards h = true ->
   exists a bh bp ll kf cf,
     In (EUvicornRun a bh bp ll kf cf) (launch_trace h env)).
Proof.
  split.
  - intros a bh bp ll kf cf Hin.
    apply uvicorn_run_called in Hin
      as (Hg & -> & -> & -> & -> & -> & ->).
    exists (launcher_server_settings (environ_with_defaults env)).
    cbn [app_server_settings app_model_settings].
    split; [|split]; [| |done];
      apply startup_in_trace; try done; cbn [startup_events In]; tauto.
  - intros Hg.
    pose (s := launcher_server_settings (environ_with_defaults env)).
    exists {| app_server_settings := s;
              app_model_settings := [launcher_model_settings h] |},
           (host s), (port s), "info", (ssl_keyfile s), (ssl_certfile s).
    apply startup_in_trace; try done; cbn [startup_events In]; tauto.
Qed.

(** C10, amended. The configuration is determined by the CPU count and the
    directory of the launcher: two runs with the same CPU count and the same
    directory build equal model configurations, and server configurations
    that agree on every field the launcher passes, and are equal when the
    library fills the two TLS fields alike.  Every field the launcher passes,
    except [model], [n_threads] and [n_threads_batch], is a constant;
    [model] is the path of the model file under the launcher's directory. *)
Theorem launch_config_determined_by_cpu_count_and_location
    (h1 h2 : Host) (env1 env2 : gmap string string) :
  cpu_count h1 = cpu_count h2 ->
  parent (script_file h1) = parent (script_file h2) ->
  (forall m1 m2,
     In (EModelSettings m1) (launch_trace h1 env1) ->
     In (EModelSettings m2) (launch_trace h2 env2) ->
     m1 = m2)
  /\
  (forall s1 s2,
     In (EServerSettings s1) (launch_trace h1 env1) ->
     In (EServerSettings s2) (launch_trace h2 env2) ->
     host s1 = host s2 /\ port s1 = port s2 /\
     interrupt_requests s1 = interrupt_requests s2 /\
     (ssl_keyfile s1 = ssl_keyfile s2 -> ssl_certfile s1 = ssl_certfile s2 ->
      s1 = s2))
  /\
  (forall s, In (EServerSettings s) (launch_trace h1 env1) ->
     host s = "127.0.0.1" /\ port s = 54546 /\ interrupt_requests s = true)
  /\
  (forall m, In (EModelSettings m) (launch_trace h1 env1) ->
     model m = path_str (model_file h1) /\
     model_alias m = "gemma-3-270m-it" /\ chat_format m = "gemma" /\
     n_ctx m = 32768 /\ n_gpu_layers m = 0 /\
     n_batch m = 1024 /\ n_ubatch m = 1024 /\
     use_mmap m = true /\ use_mlock m = false /\
     cache m = true /\ cache_type m = "ram" /\ cache_size m = 4294967296 /\
     offload_kqv m = false /\ flash_attn m = false /\
     logits_all m = false /\ verbose m = true).
Proof.
  intros Hcpu Hdir. split; [|split; [|split]].
  - intros m1 m2 H1 H2.
    apply model_settings_built in H1 as [_ ->].
    apply model_settings_built in H2 as [_ ->].
    unfold launcher_model_settings, model_file. by rewrite Hcpu, Hdir.
  - intros s1 s2 H1 H2.
    apply server_settings_built in H1 as [_ ->].
    apply server_settings_built in H2 as [_ ->].
    unfold launcher_server_settings. cbn [host port interrupt_requests
      ssl_keyfile ssl_certfile].
    repeat split. by intros -> ->.
  - intros s Hin. by apply server_settings_built in Hin as [_ ->].
  - intros m Hin. apply model_settings_built in Hin as [_ ->].
    repeat split.
Qed.

(** ** Further properties of the launcher *)

Lemma string_app_assoc (a b c : string) : (a +:+ b) +:+ c = a +:+ b +:+ c.
Proof.
  induction a as [|x a IH]; [reflexivity|].
  change (String x ((a +:+ b) +:+ c) = String x (a +:+ b +:+ c)).
  by rewrite IH.
Qed.

Lemma string_app_nil_r (a : string) : a +:+ EmptyString = a.
Proof.
  induction a as [|x a IH]; [reflexivity|].
  change (String x (a +:+ EmptyString) = String x a). by rewrite IH.
Qed.

Lemma str_parts_app (p q : list string) :
  str_parts (p ++ q) = str_parts p +:+ str_parts q.
Proof.
  induction p as [|x p IH]; [reflexivity|].
  change (String "/" (x +:+ str_parts (p ++ q))
          = (String "/" (x +:+ str_parts p)) +:+ str_parts q).
  rewrite IH.
  change (String "/" (x +:+ str_parts p +:+ str_parts q)
          = String "/" ((x +:+ str_parts p) +:+ str_parts q)).
  by rewrite string_app_assoc.
Qed.

Lemma path_str_joinpath (p : Path) (name : string) :
  path_str (joinpath p name) = str_parts p +:+ "/" +:+ name.
Proof.
  unfold path_str, joinpath. destruct (p ++ [name]) eqn:Hp.
  - by destruct p.
  - rewrite <- Hp, str_parts_app.
    change (str_parts [name]) with ("/" +:+ name +:+ EmptyString).
    by rewrite string_app_nil_r.
Qed.

(** The environment after the three defaults is the caller's environment
    completed with the defaults. *)
Lemma environ_with_defaults_union (env : gmap string string) :
  environ_with_defaults env = env ∪ list_to_map gpu_env_defaults.
Proof.
  apply map_eq. intros k. rewrite lookup_union.
  destruct (env !! k) as [v|] eqn:Hk.
  - rewrite (environ_with_defaults_present _ _ _ Hk).
    by destruct (list_to_map gpu_env_defaults !! k).
  - rewrite (left_id_L None _).
    destruct (list_to_map gpu_env_defaults !! k) as [d|] eqn:Hd.
    + apply environ_with_defaults_absent; [|done].
      apply list_elem_of_In. by apply elem_of_list_to_map_2.
    + rewrite environ_with_defaults_other; [done|].
      intros d Hin. apply not_elem_of_list_to_map in Hd. apply Hd.
      apply list_elem_of_In in Hin. apply list_elem_of_fmap.
      by exists (k, d).
Qed.

Lemma environ_with_defaults_defined (env : gmap string string) (k d : string) :
  In (k, d) gpu_env_defaults -> is_Some (environ_with_defaults env !! k).
Proof.
  intros Hin. destruct (env !! k) as [v|] eqn:Hk.
  - exists v. by apply environ_with_defaults_present.
  - exists d. by apply environ_with_defaults_absent.
Qed.

Lemma environ_with_defaults_idemp (env : gmap string string) :
  environ_with_defaults (environ_with_defaults env) = environ_with_defaults env.
Proof.
  rewrite !environ_with_defaults_union.
  by rewrite <- (assoc_L (∪)), (idemp_L (∪)).
Qed.


(** X2. Start-up steps happen only past the guards, and [uvicorn] is imported
    lazily: a settings object is built, [create_app] called, [uvicorn]
    imported or run only on a run that has passed both guards and imported
    the server library; [uvicorn] is imported exactly when, in addition, every
    call up to its import has returned, so only after [create_app] has
    returned the app; and the server is run exactly when [uvicorn] was
    imported. *)
Theorem startup_only_past_guards
    (f : Faults) (h : Host) (env : gmap string string) :
  (forall e, In e (run_trace f h env) -> is_startup e = true ->
     passes_guards h = true /\ server_import_fault f = None)
  /\
  (In EImportUvicorn (run_trace f h env) <->
   passes_guards h = true /\ server_import_fault f = None /\
   cpu_count_fault f = None /\ server_settings_fault f = None /\
   model_settings_fault f = None /\ create_app_fault f = None /\
   uvicorn_import_fault f = None)
  /\
  (In EImportUvicorn (run_trace f h env) ->
   exists s ms, In (ECreateApp s ms) (run_trace f h env))
  /\
  ((exists a bh bp ll kf cf,
      In (EUvicornRun a bh bp ll kf cf) (run_trace f h env))
   <-> In EImportUvicorn (run_trace f h env)).
Proof.
  assert (Hpast : forall e, In e (run_trace f h env) -> is_startup e = true ->
            passes_guards h = true /\ server_import_fault f = None).
  { intros e Hin He. apply (run_past_import f h env e); [done|].
    intros msg ->. discriminate He. }
  assert (Hrun : forall e, is_startup e = true ->
            In e (run_trace f h env) <->
            passes_guards h = true /\ server_import_fault f = None /\
            In e (firstn (startup_progress f)
                    (startup_events h (environ_with_defaults env)))).
  { intros e He. split.
    - intros Hin. destruct (Hpast e Hin He) as [Hg Hfault].
      do 2 (split; [done|]).
      destruct (run_reaches_defaults f h env Hg Hfault) as (_ & _ & Htr).
      rewrite Htr in Hin. by apply in_startup_part in Hin.
    - intros (Hg & Hfault & Hin).
      destruct (run_reaches_defaults f h env Hg Hfault) as (_ & _ & ->).
      by apply in_startup_part. }
  assert (Hlazy : In EImportUvicorn (run_trace f h env) <->
            passes_guards h = true /\ server_import_fault f = None /\
            cpu_count_fault f = None /\ server_settings_fault f = None /\
            model_settings_fault f = None /\ create_app_fault f = None /\
            uvicorn_import_fault f = None).
  { rewrite (Hrun EImportUvicorn) by done. unfold startup_progress.
    destruct (cpu_count_fault f), (server_settings_fault f),
      (model_settings_fault f), (create_app_fault f),
      (uvicorn_import_fault f);
      cbn [firstn startup_events In]; intuition discriminate. }
  split; [done|]. split; [done|]. split.
  - intros Hin. apply Hlazy in Hin
      as (Hg & Hfault & Hc & Hs & Hm & Ha & Hu).
    exists (launcher_server_settings (environ_with_defaults env)),
           [launcher_model_settings h].
    apply Hrun; [done|]. do 2 (split; [done|]).
    unfold startup_progress. rewrite Hc, Hs, Hm, Ha, Hu.
    cbn [firstn startup_events In]. tauto.
  - split.
    + intros (a & bh & bp & ll & kf & cf & Hin).
      apply Hrun in Hin as (Hg & Hfault & Hin); [|done].
      apply Hrun; [done|]. do 2 (split; [done|]).
      unfold startup_progress in *.
      destruct (cpu_count_fault f), (server_settings_fault f),
        (model_settings_fault f), (create_app_fault f),
        (uvicorn_import_fault f);
        cbn [firstn startup_events In] in *; intuition discriminate.
    + intros Hin. apply Hrun in Hin as (Hg & Hfault & Hin); [|done].
      pose (s := launcher_server_settings (environ_with_defaults env)).
      exists {| app_server_settings := s;
                app_model_settings := [launcher_model_settings h] |},
             (host s), (port s), "info", (ssl_keyfile s), (ssl_certfile s).
      apply Hrun; [done|]. do 2 (split; [done|]).
      unfold startup_progress in *.
      destruct (cpu_count_fault f), (server_settings_fault f),
        (model_settings_fault f), (create_app_fault f),
        (uvicorn_import_fault f);
        cbn [firstn startup_events In] in *; intuition discriminate.
Qed.

(** X3. The launcher itself writes to the error stream only to report a
    stopped guard: it prints a diagnostic exactly when the model file is
    missing (the message names the path looked for) or, the file being
    there, when the import of the server library raises [ImportError]; a run
    stopped by a guard consists of that one print.  When the import raises
    another exception, or a later call fails, the launcher prints nothing. *)
Theorem diagnostics_only_at_guards
    (f : Faults) (h : Host) (env : gmap string string) :
  (forall msg,
     In (EPrintErr msg) (run_trace f h env) <->
     (path_exists h (model_file h) = false /\
      msg = "[!] Model file not found: " +:+ path_str (model_file h))
     \/
     (path_exists h (model_file h) = true /\ server_importable h = false /\
      msg = missing_dependency_msg))
  /\
  (passes_guards h = false ->
   exists msg, run_trace f h env = [EPrintErr msg])
  /\
  (passes_guards h = true ->
   forall msg, ~ In (EPrintErr msg) (run_trace f h env)).
Proof.
  assert (Hpast : passes_guards h = true ->
            forall msg, ~ In (EPrintErr msg) (run_trace f h env)).
  { intros Hg msg Hin. apply run_trace_in_launch in Hin.
    apply launch_trace_inv in Hin
      as [(Hg' & _)|(_ & [Hin|[(k & v & Hin & _)|Hin]])];
      [congruence|discriminate Hin|discriminate Hin|].
    apply startup_events_are_startup in Hin. discriminate Hin. }
  split; [|split; [|done]].
  - intros msg. unfold run_trace.
    destruct (run_cases f h env)
      as [(Hfile & Hrun)|[(Hfile & Himp & Hrun)|[(Hg & _)|(Hg & _)]]].
    + rewrite Hrun. cbn [snd trace In]. split.
      * intros [[= <-]|[]]. by left.
      * intros [[_ ->]|(Hf & _)]; [by left | congruence].
    + rewrite Hrun. cbn [snd trace In]. split.
      * intros [[= <-]|[]]. by right.
      * intros [[Hf _]|(_ & _ & ->)]; [congruence | by left].
    + apply passes_guards_true in Hg as [Hfile Himp]. split.
      * intros Hin. destruct (Hpast (proj2 (passes_guards_true h)
                                       (conj Hfile Himp)) msg Hin).
      * intros [[Hf _]|(_ & Hi & _)]; congruence.
    + apply passes_guards_true in Hg as [Hfile Himp]. split.
      * intros Hin. destruct (Hpast (proj2 (passes_guards_true h)
                                       (conj Hfile Himp)) msg Hin).
      * intros [[Hf _]|(_ & Hi & _)]; congruence.
  - intros Hg. unfold run_trace.
    destruct (run_cases f h env)
      as [(_ & ->)|[(_ & _ & ->)|[(Hg' & _)|(Hg' & _)]]];
      [eauto|eauto|congruence|congruence].
Qed.

(** X4. The order of the steps on a run that has imported the server
    library: the import, then at most three writes of GPU defaults, then, as
    far as the calls return, the server settings, the model settings,
    [create_app] on these server settings and the one model settings, the
    import of [uvicorn], and last the run of the server on the app, with the
    fields of the server settings and log level info.  When every call
    returns the run is the whole sequence. *)
Theorem startup_sequence (f : Faults) (h : Host) (env : gmap string string) :
  passes_guards h = true ->
  server_import_fault f = None ->
  exists writes s m,
    (forall e, In e writes -> exists k v, e = ESetEnv k v) /\
    (length writes <= 3)%nat /\
    (EImportServer :: writes) `prefix_of` run_trace f h env /\
    run_trace f h env `prefix_of`
      (EImportServer :: writes ++
       [EServerSettings s; EModelSettings m; ECreateApp s [m]; EImportUvicorn;
        EUvicornRun {| app_server_settings := s; app_model_settings := [m] |}
          (host s) (port s) "info" (ssl_keyfile s) (ssl_certfile s)]) /\
    (first_startup_fault f = None ->
     run_trace f h env =
       EImportServer :: writes ++
       [EServerSettings s; EModelSettings m; ECreateApp s [m]; EImportUvicorn;
        EUvicornRun {| app_server_settings := s; app_model_settings := [m] |}
          (host s) (port s) "info" (ssl_keyfile s) (ssl_certfile s)]).
Proof.
  intros Hg Hfault.
  destruct (run_reaches_defaults f h env Hg Hfault) as (_ & _ & ->).
  exists (default_writes env),
         (launcher_server_settings (environ_with_defaults env)),
         (launcher_model_settings h).
  split; [apply default_writes_are_writes|]. split.
  { unfold default_writes, gpu_env_defaults, setdefault_log.
    cbn [flat_map fst snd].
    repeat destruct (env !! _); cbn [app length]; lia. }
  split; [|split].
  - rewrite app_comm_cons. by apply prefix_app_r.
  - rewrite !app_comm_cons. apply prefix_app, prefix_take.
  - unfold first_startup_fault, startup_progress.
    destruct (cpu_count_fault f), (server_settings_fault f),
      (model_settings_fault f), (create_app_fault f),
      (uvicorn_import_fault f), (uvicorn_run_fault f); done.
Qed.

(** X5. On a run that passes both guards the launcher merges the defaults
    into the environment, the caller's values winning: the final environment
    is the initial one completed with the three defaults, and its variables
    are the initial ones and the three GPU variables. *)
Theorem environment_merged_with_defaults (h : Host) (env : gmap string string) :
  passes_guards h = true ->
  launch_environ h env = env ∪ list_to_map gpu_env_defaults /\
  dom (launch_environ h env) =
    dom env ∪ {["LLAMA_CUBLAS"; "LLAMA_METAL"; "CUDA_VISIBLE_DEVICES"]}.
Proof.
  intros Hg.
  destruct (launch_cases h env) as [(Hg' & _)|(_ & _ & -> & _)]; [congruence|].
  rewrite environ_with_defaults_union. split; [done|].
  rewrite dom_union_L. f_equal.
Qed.

(** X6. The defaults are applied once and for all: a launcher started in the
    environment that a run past the guards has left writes nothing and
    leaves that environment as it is. *)
Theorem second_run_writes_nothing (h h' : Host) (env : gmap string string) :
  passes_guards h = true ->
  (forall k v, ~ In (ESetEnv k v) (launch_trace h' (launch_environ h env))) /\
  launch_environ h' (launch_environ h env) = launch_environ h env.
Proof.
  intros Hg.
  destruct (launch_cases h env) as [(Hg' & _)|(_ & _ & -> & _)]; [congruence|].
  split.
  - intros k v Hin. apply env_write_performed in Hin as (_ & Hkv & Hnone).
    destruct (environ_with_defaults_defined env k v Hkv) as [x Hx]. congruence.
  - destruct (launch_cases h' (environ_with_defaults env))
      as [(_ & _ & -> & _)|(_ & _ & -> & _)]; [done|].
    apply environ_with_defaults_idemp.
Qed.

(** X7. One core is left to the system when there is one to spare: from two
    CPUs on the inference pool is exactly one thread short of the batch pool;
    with a single CPU (or a count below one) it still has one thread, and
    nothing is left free; from one CPU on it never exceeds the batch pool. *)
Theorem one_core_reserved_when_possible
    (h : Host) (env : gmap string string) (m : ModelSettings) :
  In (EModelSettings m) (launch_trace h env) ->
  (2 <= cpu_count h ->
   n_threads m = cpu_count h - 1 /\ n_threads_batch m - n_threads m = 1) /\
  (cpu_count h <= 1 -> n_threads m = 1) /\
  (1 <= cpu_count h -> n_threads m <= n_threads_batch m).
Proof.
  intros Hin. apply model_settings_built in Hin as [_ ->].
  cbn [launcher_model_settings n_threads n_threads_batch]. lia.
Qed.

(** X8. The model path handed to the library is the path that passed the
    existence guard, as an absolute path: the launcher's directory followed
    by [/Model/gemma-3-270m-it-Q8_0.gguf]. *)
Theorem model_passed_is_model_checked
    (h : Host) (env : gmap string string) (m : ModelSettings) :
  In (EModelSettings m) (launch_trace h env) ->
  path_exists h (model_file h) = true /\
  model m = path_str (model_file h) /\
  model m = str_parts (parent (script_file h))
            +:+ "/Model/gemma-3-270m-it-Q8_0.gguf".
Proof.
  intros Hin. apply model_settings_built in Hin as [Hg ->].
  apply passes_guards_true in Hg as [Hfile _].
  split; [done|]. split; [done|].
  cbn [launcher_model_settings model]. unfold model_file.
  rewrite path_str_joinpath. unfold joinpath. rewrite str_parts_app.
  change (str_parts ["Model"]) with ("/Model" +:+ EmptyString).
  rewrite string_app_nil_r, string_app_assoc. reflexivity.
Qed.

(** X9. The server settings are built in the environment the defaults have
    left: what the library takes from the environment for the fields the
    launcher does not pass, it takes from the final environment, in which
    each of the three GPU variables has a value. *)
Theorem settings_built_in_final_environment
    (h : Host) (env : gmap string string) (s : ServerSettings) :
  In (EServerSettings s) (launch_trace h env) ->
  ssl_keyfile s = default_ssl_keyfile (launch_environ h env) /\
  ssl_certfile s = default_ssl_certfile (launch_environ h env) /\
  (forall k d, In (k, d) gpu_env_defaults ->
               is_Some (launch_environ h env !! k)).
Proof.
  intros Hin. apply server_settings_built in Hin as [Hg ->].
  destruct (launch_cases h env) as [(Hg' & _)|(_ & _ & -> & _)]; [congruence|].
  split; [done|]. split; [done|].
  intros k d. apply environ_with_defaults_defined.
Qed.

(** X11. The GPU defaults come before every start-up step: whatever call
    fails, no settings object is built, no app created, [uvicorn] neither
    imported nor run before a write of a default. *)
Theorem env_defaults_precede_startup
    (f : Faults) (h : Host) (env : gmap string string)
    (pre post : list Event) (k v : string) :
  run_trace f h env = pre ++ ESetEnv k v :: post ->
  forall e, In e pre -> is_startup e = false.
Proof.
  intros Heq.
  assert (Hin : In (ESetEnv k v) (run_trace f h env))
    by (rewrite Heq; apply in_or_app; right; by left).
  apply run_past_import in Hin as [Hg Hfault]; [|done].
  destruct (run_reaches_defaults f h env Hg Hfault) as (_ & _ & Htr).
  rewrite Htr in Heq.
  apply write_position in Heq as (_ & Hpre & _).
  - done.
  - apply default_writes_are_writes.
  - intros e He. by apply in_firstn, startup_events_are_startup in He.
Qed.

(** X12. A failing call only cuts the run short: whatever the faults, the
    events of the run are an initial segment of the events of the run on
    which every call returns, and the environment holds nothing that it does
    not hold there.  What is true of every settings object built and of every
    call made on the latter run is so true on every run. *)
Theorem failing_run_is_initial_segment
    (f : Faults) (h : Host) (env : gmap string string) :
  run_trace f h env `prefix_of` launch_trace h env /\
  (forall e, In e (run_trace f h env) -> In e (launch_trace h env)) /\
  (forall k v, run_environ f h env !! k = Some v ->
               launch_environ h env !! k = Some v) /\
  (first_fault f = None -> run f h env = launch h env).
Proof.
  split; [apply run_trace_prefix|]. split; [apply run_trace_in_launch|].
  split.
  - intros k v Hk.
    destruct (launch_cases h env) as [(Hg & _ & Hl & _)|(Hg & _ & Hl & _)];
      rewrite Hl.
    + unfold run_environ in Hk.
      destruct (run_cases f h env)
        as [(_ & Hr)|[(_ & _ & Hr)|[(Hg' & _)|(Hg' & _)]]];
        [| |congruence|congruence]; by rewrite Hr in Hk.
    + destruct (run_environ_cases f h env) as [Hr|Hr]; rewrite Hr in Hk;
        [by apply environ_with_defaults_present|done].
  - unfold first_fault. intros Hnone.
    destruct (server_import_fault f) eqn:Hfault; [done|].
    destruct (run_cases f h env)
      as [(Hfile & ->)|[(Hfile & Himp & ->)
         |[(_ & a & Ha & _)|(Hg & _ & ->)]]].
    + by rewrite launch_no_model.
    + by rewrite launch_no_library.
    + congruence.
    + apply passes_guards_true in Hg as [Hfile Himp].
      rewrite launch_ok, Hnone by done. f_equal. f_equal. f_equal. f_equal.
      unfold first_startup_fault, startup_progress in *.
      destruct (cpu_count_fault f), (server_settings_fault f),
        (model_settings_fault f), (create_app_fault f),
        (uvicorn_import_fault f); done.
Qed.

(** X13. The values of the configuration do not depend on how far the run
    gets: whatever call fails, every model settings object built has the
    thread counts, the context length, the GPU layer count and the cache
    policy of the source, every server settings object built has the fixed
    endpoint and request interruption, [create_app] gets settings objects
    that were built, and every call of the runner gets its endpoint and TLS
    files from the server settings of the app that [create_app] was called
    for. *)
Theorem configuration_values_under_faults
    (f : Faults) (h : Host) (env : gmap string string) :
  (forall m, In (EModelSettings m) (run_trace f h env) ->
     n_threads m = Z.max (cpu_count h - 1) 1 /\
     n_threads_batch m = cpu_count h /\
     n_ctx m = 32768 /\ n_gpu_layers m = 0 /\
     cache m = true /\ cache_type m = "ram" /\ cache_size m = 4294967296)
  /\
  (forall s, In (EServerSettings s) (run_trace f h env) ->
     host s = "127.0.0.1" /\ port s = 54546 /\ interrupt_requests s = true)
  /\
  (forall s ms, In (ECreateApp s ms) (run_trace f h env) ->
     In (EServerSettings s) (run_trace f h env) /\
     exists m, ms = [m] /\ In (EModelSettings m) (run_trace f h env))
  /\
  (forall a bh bp ll kf cf,
     In (EUvicornRun a bh bp ll kf cf) (run_trace f h env) ->
     bh = "127.0.0.1" /\ bp = 54546 /\ ll = "info" /\
     bh = host (app_server_settings a) /\
     bp = port (app_server_settings a) /\
     kf = ssl_keyfile (app_server_settings a) /\
     cf = ssl_certfile (app_server_settings a) /\
     In (ECreateApp (app_server_settings a) (app_model_settings a))
        (run_trace f h env)).
Proof.
  split; [|split; [|split]].
  - intros m Hin. apply run_trace_in_launch in Hin.
    by apply model_settings_built in Hin as [_ ->].
  - intros s Hin. apply run_trace_in_launch in Hin.
    by apply server_settings_built in Hin as [_ ->].
  - intros s ms Hin.
    apply startup_event_in_run in Hin as (Hg & Hfault & Hin); [|done].
    apply startup_events_closed in Hin as (Hs & m & -> & Hm).
    split; [|exists m; split; [done|]]; by apply startup_event_in_run.
  - intros a bh bp ll kf cf Hin.
    pose proof (run_trace_in_launch _ _ _ _ Hin) as Hl.
    apply uvicorn_run_called in Hl as (_ & -> & -> & -> & -> & -> & ->).
    apply startup_event_in_run in Hin as (Hg & Hfault & Hin); [|done].
    apply startup_events_ordered in Hin.
    do 7 (split; [done|]). by apply startup_event_in_run.
Qed.

End Launcher.

(** ** The claims on the sample hosts *)

(** Eight CPUs give seven inference threads and eight batch threads. *)
Lemma thread_pools_on_eight_cpus :
  1 <= cpu_count demo_host /\
  exists s m,
    In (EModelSettings m) (launch_trace no_default no_default demo_host ∅) /\
    In (ECreateApp s [m]) (launch_trace no_default no_default demo_host ∅) /\
    n_threads m = 7 /\ n_threads_batch m = 8.
Proof.
  assert (Hcpu : 1 <= cpu_count demo_host) by (simpl; lia).
  split; [exact Hcpu|].
  destruct (thread_pools_from_cpu_count no_default no_default demo_host ∅ Hcpu)
    as [Hall Hex].
  destruct Hex as (s & m & Hm & Ha); [vm_compute; reflexivity|].
  destruct (Hall m Hm) as (Hn & _ & Hb).
  exists s, m. repeat split; [exact Hm | exact Ha | | ].
  - rewrite Hn. reflexivity.
  - rewrite Hb. reflexivity.
Defined.

(** Without the model file: one line on the error stream, status 1. *)
Lemma missing_model_on_sample_host :
  path_exists host_without_model (model_file host_without_model) = false /\
  launch_outcome no_default no_default host_without_model ∅ = SystemExit 1 /\
  launch_trace no_default no_default host_without_model ∅ =
    [EPrintErr "[!] Model file not found: /opt/runner/Model/gemma-3-270m-it-Q8_0.gguf"] /\
  launch_environ no_default no_default host_without_model ∅ = ∅.
Proof.
  assert (Hfile : path_exists host_without_model (model_file host_without_model)
                  = false) by reflexivity.
  split; [exact Hfile|].
  destruct (missing_model_exits_before_any_effect
              no_default no_default host_without_model ∅ Hfile)
    as (Hout & _ & Htr & Henv & _).
  split; [exact Hout|]. split; [exact Htr | exact Henv].
Defined.

(** The fixed fields, as built on the sample host. *)
Lemma fixed_fields_on_sample_host :
  exists s m,
    In (EServerSettings s) (launch_trace no_default no_default demo_host ∅) /\
    In (EModelSettings m) (launch_trace no_default no_default demo_host ∅) /\
    host s = "127.0.0.1" /\ n_gpu_layers m = 0 /\ n_ctx m = 32768.
Proof.
  destruct (cpu_only_fixed_context_loopback no_default no_default demo_host ∅)
    as (Hm & Hs & Hex).
  destruct Hex as (s & m & Hins & Hinm); [vm_compute; reflexivity|].
  exists s, m. destruct (Hm m Hinm) as [Hgpu Hctx].
  split; [exact Hins|]. split; [exact Hinm|].
  split; [exact (Hs s Hins)|]. split; [exact Hgpu | exact Hctx].
Defined.

(** A caller who asked for Metal keeps it; the two other variables get their
    defaults; [PATH] is not touched.  That [create_app] then fails changes
    nothing to it. *)
Lemma gpu_defaults_on_sample_host :
  let env : gmap string string :=
    <["LLAMA_METAL" := "1"]> (<["PATH" := "/usr/bin"]> ∅) in
  In EImportServer (run_trace no_default no_default model_load_fails demo_host env) /\
  In (ESetEnv "LLAMA_CUBLAS" "0")
     (run_trace no_default no_default model_load_fails demo_host env) /\
  run_environ no_default no_default model_load_fails demo_host env
    !! "LLAMA_CUBLAS" = Some "0" /\
  ~ In (ESetEnv "LLAMA_METAL" "0")
       (run_trace no_default no_default model_load_fails demo_host env) /\
  run_environ no_default no_default model_load_fails demo_host env
    !! "LLAMA_METAL" = Some "1" /\
  run_environ no_default no_default model_load_fails demo_host env
    !! "PATH" = Some "/usr/bin".
Proof.
  intros env.
  assert (Himp : In EImportServer
                   (run_trace no_default no_default model_load_fails demo_host env))
    by (vm_compute; left; reflexivity).
  split; [exact Himp|].
  destruct (gpu_defaults_fill_absent_variables no_default no_default
              model_load_fails demo_host env)
    as (Hset & _ & Hkeep & _ & _).
  assert (Hcublas : In ("LLAMA_CUBLAS", "0")
                      [("LLAMA_CUBLAS", "0"); ("LLAMA_METAL", "0");
                       ("CUDA_VISIBLE_DEVICES", "-1")])
    by (simpl; tauto).
  assert (Hmetal : In ("LLAMA_METAL", "0")
                     [("LLAMA_CUBLAS", "0"); ("LLAMA_METAL", "0");
                      ("CUDA_VISIBLE_DEVICES", "-1")])
    by (simpl; tauto).
  destruct (Hset Himp _ _ Hcublas) as [Hiff Hval].
  destruct (Hset Himp _ _ Hmetal) as [Hiff' _].
  split; [apply Hiff; vm_compute; reflexivity|].
  split; [apply Hval; vm_compute; reflexivity|].
  split; [intros Hw; apply Hiff' in Hw; vm_compute in Hw; discriminate Hw|].
  split; apply Hkeep; vm_compute; reflexivity.
Defined.

(** The claim C4 as stated fails where a guard stops the run: the variable is
    absent, and it is not set. *)
Lemma guard_stops_env_defaults :
  (∅ : gmap string string) !! "LLAMA_CUBLAS" = None /\
  ~ In (ESetEnv "LLAMA_CUBLAS" "0")
       (launch_trace no_default no_default host_without_model ∅) /\
  launch_environ no_default no_default host_without_model ∅ !! "LLAMA_CUBLAS" = None.
Proof.
  split; [reflexivity|]. split; [|reflexivity].
  intros [Hin|[]]. discriminate Hin.
Qed.

(** C5. On the sample host, started without any of the three variables, the
    import of the server library is the first event of the run; the three
    writes of the GPU defaults come after it. *)
Lemma import_precedes_env_defaults :
  firstn 4 (launch_trace no_default no_default demo_host ∅) =
  [EImportServer;
   ESetEnv "LLAMA_CUBLAS" "0";
   ESetEnv "LLAMA_METAL" "0";
   ESetEnv "CUDA_VISIBLE_DEVICES" "-1"].
Proof. vm_compute. reflexivity. Qed.

(** Without the server library: the install command on the error stream,
    status 1. *)
Lemma missing_library_on_sample_host :
  path_exists host_without_library (model_file host_without_library) = true /\
  server_importable host_without_library = false /\
  run_outcome no_default no_default no_faults host_without_library ∅
    = SystemExit 1 /\
  exists msg,
    run_trace no_default no_default no_faults host_without_library ∅
      = [EPrintErr msg] /\
    contains ("pip install "
              +:+ String (ascii_of_nat 34)
                    ("llama-cpp-python[server]"
                     +:+ String (ascii_of_nat 34) EmptyString)) msg.
Proof.
  assert (Hfile : path_exists host_without_library
                    (model_file host_without_library) = true)
    by (vm_compute; reflexivity).
  assert (Himp : server_importable host_without_library = false)
    by reflexivity.
  split; [exact Hfile|]. split; [exact Himp|].
  destruct (missing_library_exits_with_install_command
              no_default no_default no_faults host_without_library ∅ Hfile Himp)
    as (Hout & _ & msg & Htr & _ & Hpip).
  split; [exact Hout|]. exists msg. split; [exact Htr | exact Hpip].
Defined.

(** The claim C6 as stated fails when the import fails with another
    exception than [ImportError]: the model file is there, the server library
    is not imported, and the launcher prints no diagnostic; the exception is
    left uncaught. *)
Lemma import_failure_without_diagnostic :
  path_exists demo_host (model_file demo_host) = true /\
  server_import_fault broken_library = Some (Raises "RuntimeError") /\
  ~ In EImportServer (run_trace no_default no_default broken_library demo_host ∅) /\
  run_trace no_default no_default broken_library demo_host ∅ = [] /\
  run_outcome no_default no_default broken_library demo_host ∅
    = Uncaught "RuntimeError".
Proof.
  split; [vm_compute; reflexivity|]. split; [reflexivity|].
  split; [intros Hin; vm_compute in Hin; exact Hin|].
  split; vm_compute; reflexivity.
Qed.

(** The server settings handed to [create_app] on the sample host. *)
Lemma request_interruption_on_sample_host :
  exists s ms,
    In (ECreateApp s ms) (launch_trace no_default no_default demo_host ∅) /\
    interrupt_requests s = true.
Proof.
  destruct (request_interruption_enabled no_default no_default demo_host ∅)
    as (_ & Happ & Hex).
  destruct Hex as (s & ms & _ & Hin); [vm_compute; reflexivity|].
  exists s, ms. split; [exact Hin | exact (Happ s ms Hin)].
Defined.

(** The cache policy built on the sample host. *)
Lemma cache_policy_on_sample_host :
  exists m,
    In (EModelSettings m) (launch_trace no_default no_default demo_host ∅) /\
    cache m = true /\ cache_type m = "ram" /\ cache_size m = 4294967296.
Proof.
  destruct (cache_policy_fixed no_default no_default demo_host ∅)
    as (Hall & Hex).
  destruct Hex as (m & Hin); [vm_compute; reflexivity|].
  destruct (Hall m Hin) as (Hc & Ht & _ & Hs).
  exists m. split; [exact Hin|]. split; [exact Hc|]. split; [exact Ht | exact Hs].
Defined.

(** The runner's arguments on the sample host. *)
Lemma endpoint_on_sample_host :
  exists a bh bp ll kf cf,
    In (EUvicornRun a bh bp ll kf cf)
       (launch_trace no_default no_default demo_host ∅) /\
    bh = "127.0.0.1" /\ bp = 54546 /\
    bh = host (app_server_settings a) /\ bp = port (app_server_settings a) /\
    kf = ssl_keyfile (app_server_settings a) /\
    cf = ssl_certfile (app_server_settings a).
Proof.
  destruct (server_runs_on_configured_endpoint no_default no_default demo_host ∅)
    as (Hall & Hex).
  destruct Hex as (a & bh & bp & ll & kf & cf & Hin); [vm_compute; reflexivity|].
  destruct (Hall _ _ _ _ _ _ Hin)
    as (s & _ & _ & Hs & Hh & Hp & Hk & Hc & Hh' & Hp').
  exists a, bh, bp, ll, kf, cf. rewrite Hs.
  repeat split; assumption.
Defined.

(** Same CPU count, same directory, another script name and another
    environment: the same model settings. *)
Lemma same_directory_same_config :
  let env2 : gmap string string := <["LLAMA_METAL" := "1"]> ∅ in
  cpu_count demo_host = cpu_count renamed_host /\
  parent (script_file demo_host) = parent (script_file renamed_host) /\
  exists m1 m2,
    In (EModelSettings m1) (launch_trace no_default no_default demo_host ∅) /\
    In (EModelSettings m2) (launch_trace no_default no_default renamed_host env2) /\
    m1 = m2.
Proof.
  intros env2.
  assert (Hcpu : cpu_count demo_host = cpu_count renamed_host) by reflexivity.
  assert (Hdir : parent (script_file demo_host) = parent (script_file renamed_host))
    by reflexivity.
  split; [exact Hcpu|]. split; [exact Hdir|].
  destruct (launch_config_determined_by_cpu_count_and_location
              no_default no_default demo_host renamed_host ∅ env2 Hcpu Hdir)
    as (Hm & _).
  assert (H1 : exists m, In (EModelSettings m)
                 (launch_trace no_default no_default demo_host ∅))
    by (eexists; vm_compute; do 5 right; left; reflexivity).
  assert (H2 : exists m, In (EModelSettings m)
                 (launch_trace no_default no_default renamed_host env2))
    by (eexists; vm_compute; do 4 right; left; reflexivity).
  destruct H1 as [m1 H1]. destruct H2 as [m2 H2].
  exists m1, m2. split; [exact H1|]. split; [exact H2 | exact (Hm m1 m2 H1 H2)].
Defined.

(** The claim C10 as stated fails for two hosts with the same CPU count and
    the launcher in different directories: the [model] fields differ. *)
Lemma same_cpu_count_different_config :
  cpu_count demo_host = cpu_count relocated_host /\
  passes_guards demo_host = true /\
  passes_guards relocated_host = true /\
  exists m1 m2,
    In (EModelSettings m1) (launch_trace no_default no_default demo_host ∅) /\
    In (EModelSettings m2) (launch_trace no_default no_default relocated_host ∅) /\
    model m1 = "/opt/runner/Model/gemma-3-270m-it-Q8_0.gguf" /\
    model m2 = "/srv/gemma/Model/gemma-3-270m-it-Q8_0.gguf" /\
    m1 <> m2.
Proof.
  split; [reflexivity|]. split; [vm_compute; reflexivity|].
  split; [vm_compute; reflexivity|].
  exists (launcher_model_settings demo_host),
         (launcher_model_settings relocated_host).
  split; [vm_compute; tauto|]. split; [vm_compute; tauto|].
  split; [reflexivity|]. split; [reflexivity|]. discriminate.
Qed.

(** ** Further properties on the sample hosts *)


(** On the sample host the server runs.  When the model does not load,
    [uvicorn] is not imported; without the model file nothing of the start-up
    happens. *)
Lemma startup_on_sample_hosts :
  In EImportUvicorn (run_trace no_default no_default no_faults demo_host ∅) /\
  ~ In EImportUvicorn
       (run_trace no_default no_default model_load_fails demo_host ∅) /\
  ~ In EImportUvicorn
       (run_trace no_default no_default no_faults host_without_model ∅).
Proof.
  destruct (startup_only_past_guards no_default no_default no_faults demo_host ∅)
    as (_ & Hlazy & _).
  destruct (startup_only_past_guards no_default no_default
              model_load_fails demo_host ∅) as (_ & Hlazy' & _).
  destruct (startup_only_past_guards no_default no_default
              no_faults host_without_model ∅) as (_ & Hlazy'' & _).
  split; [|split].
  - apply Hlazy. repeat split; vm_compute; reflexivity.
  - intros Hin. apply Hlazy' in Hin as (_ & _ & _ & _ & _ & Ha & _).
    discriminate Ha.
  - intros Hin. apply Hlazy'' in Hin as (Hg & _).
    vm_compute in Hg. discriminate Hg.
Defined.

(** The two diagnostics on the hosts that lack the file and the library; no
    diagnostic of the launcher when the import raises another exception. *)
Lemma diagnostics_on_sample_hosts :
  In (EPrintErr "[!] Model file not found: /opt/runner/Model/gemma-3-270m-it-Q8_0.gguf")
     (run_trace no_default no_default no_faults host_without_model ∅) /\
  In (EPrintErr missing_dependency_msg)
     (run_trace no_default no_default no_faults host_without_library ∅) /\
  (forall msg,
     ~ In (EPrintErr msg)
          (run_trace no_default no_default broken_library demo_host ∅)).
Proof.
  split; [|split].
  - apply (diagnostics_only_at_guards no_default no_default
             no_faults host_without_model ∅).
    left. split; reflexivity.
  - apply (diagnostics_only_at_guards no_default no_default
             no_faults host_without_library ∅).
    right. split; [vm_compute; reflexivity|]. split; reflexivity.
  - apply (diagnostics_only_at_guards no_default no_default
             broken_library demo_host ∅).
    vm_compute. reflexivity.
Defined.

(** The sequence on the sample host, where a caller has set one of the three
    variables and the model does not load: it stops after the call of
    [create_app]. *)
Lemma startup_sequence_on_sample_host :
  let env : gmap string string := <["LLAMA_METAL" := "1"]> ∅ in
  passes_guards demo_host = true /\
  server_import_fault model_load_fails = None /\
  exists writes s m,
    (length writes <= 3)%nat /\
    (EImportServer :: writes) `prefix_of`
      run_trace no_default no_default model_load_fails demo_host env /\
    run_trace no_default no_default model_load_fails demo_host env `prefix_of`
      (EImportServer :: writes ++
       [EServerSettings s; EModelSettings m; ECreateApp s [m]; EImportUvicorn;
        EUvicornRun {| app_server_settings := s; app_model_settings := [m] |}
          (host s) (port s) "info" (ssl_keyfile s) (ssl_certfile s)]).
Proof.
  intros env.
  assert (Hg : passes_guards demo_host = true) by (vm_compute; reflexivity).
  assert (Hfault : server_import_fault model_load_fails = None)
    by reflexivity.
  split; [exact Hg|]. split; [exact Hfault|].
  destruct (startup_sequence no_default no_default model_load_fails
              demo_host env Hg Hfault)
    as (writes & s & m & _ & Hlen & Hpre & Hseq & _).
  exists writes, s, m. split; [exact Hlen|]. split; [exact Hpre | exact Hseq].
Defined.

(** A caller's Metal setting survives the merge; the two other variables
    are added. *)
Lemma environment_merge_on_sample_host :
  let env : gmap string string := <["LLAMA_METAL" := "1"]> ∅ in
  passes_guards demo_host = true /\
  launch_environ no_default no_default demo_host env =
    <["LLAMA_METAL" := "1"]> (<["LLAMA_CUBLAS" := "0"]>
      (<["CUDA_VISIBLE_DEVICES" := "-1"]> ∅)).
Proof.
  intros env.
  assert (Hg : passes_guards demo_host = true) by (vm_compute; reflexivity).
  split; [exact Hg|].
  destruct (environment_merged_with_defaults no_default no_default demo_host env Hg)
    as [Henv _].
  rewrite Henv. vm_compute. reflexivity.
Defined.

(** A second launcher, on another host, started in the environment the
    sample host's run has left. *)
Lemma second_run_on_sample_hosts :
  passes_guards demo_host = true /\
  launch_environ no_default no_default relocated_host
    (launch_environ no_default no_default demo_host ∅)
  = launch_environ no_default no_default demo_host ∅.
Proof.
  assert (Hg : passes_guards demo_host = true) by (vm_compute; reflexivity).
  split; [exact Hg|].
  destruct (second_run_writes_nothing no_default no_default
              demo_host relocated_host ∅ Hg) as [_ Henv].
  exact Henv.
Defined.

(** Eight CPUs: seven inference threads.  One CPU: one thread in each
    pool. *)
Lemma core_reservation_on_sample_hosts :
  (exists m, In (EModelSettings m) (launch_trace no_default no_default demo_host ∅)
             /\ 2 <= cpu_count demo_host
             /\ n_threads m = 7 /\ n_threads_batch m - n_threads m = 1)
  /\
  (exists m, In (EModelSettings m)
                (launch_trace no_default no_default single_cpu_host ∅)
             /\ cpu_count single_cpu_host <= 1
             /\ n_threads m = 1).
Proof.
  split.
  - assert (Hex : exists m, In (EModelSettings m)
                    (launch_trace no_default no_default demo_host ∅))
      by (eexists; vm_compute; do 5 right; left; reflexivity).
    destruct Hex as [m Hin]. exists m.
    destruct (one_core_reserved_when_possible no_default no_default
                demo_host ∅ m Hin) as (Htwo & _ & _).
    assert (Hcpu : 2 <= cpu_count demo_host) by (simpl; lia).
    destruct (Htwo Hcpu) as [Hn Hd].
    split; [exact Hin|]. split; [exact Hcpu|]. split; [exact Hn | exact Hd].
  - assert (Hex : exists m, In (EModelSettings m)
                    (launch_trace no_default no_default single_cpu_host ∅))
      by (eexists; vm_compute; do 5 right; left; reflexivity).
    destruct Hex as [m Hin]. exists m.
    destruct (one_core_reserved_when_possible no_default no_default
                single_cpu_host ∅ m Hin) as (_ & Hone & _).
    assert (Hcpu : cpu_count single_cpu_host <= 1) by (simpl; lia).
    split; [exact Hin|]. split; [exact Hcpu | exact (Hone Hcpu)].
Defined.

(** The model path on the sample host. *)
Lemma model_path_on_sample_host :
  exists m,
    In (EModelSettings m) (launch_trace no_default no_default demo_host ∅) /\
    path_exists demo_host (model_file demo_host) = true /\
    model m = "/opt/runner" +:+ "/Model/gemma-3-270m-it-Q8_0.gguf".
Proof.
  assert (Hex : exists m, In (EModelSettings m)
                  (launch_trace no_default no_default demo_host ∅))
    by (eexists; vm_compute; do 5 right; left; reflexivity).
  destruct Hex as [m Hin]. exists m.
  destruct (model_passed_is_model_checked no_default no_default
              demo_host ∅ m Hin) as (Hfile & _ & Hstr).
  split; [exact Hin|]. split; [exact Hfile | exact Hstr].
Defined.

(** With a library that takes the TLS key from [SSL_KEYFILE], the key of the
    settings is the caller's. *)
Lemma settings_environment_on_sample_host :
  let env : gmap string string := <["SSL_KEYFILE" := "/etc/key.pem"]> ∅ in
  let from_environ := fun e : gmap string string => e !! "SSL_KEYFILE" in
  exists s,
    In (EServerSettings s) (launch_trace from_environ no_default demo_host env) /\
    ssl_keyfile s = Some "/etc/key.pem" /\
    is_Some (launch_environ from_environ no_default demo_host env !! "LLAMA_CUBLAS").
Proof.
  intros env from_environ.
  assert (Hex : exists s, In (EServerSettings s)
                  (launch_trace from_environ no_default demo_host env))
    by (eexists; vm_compute; do 4 right; left; reflexivity).
  destruct Hex as [s Hin]. exists s.
  destruct (settings_built_in_final_environment from_environ no_default
              demo_host env s Hin) as (Hkey & _ & Hdef).
  split; [exact Hin|]. split.
  - rewrite Hkey. vm_compute. reflexivity.
  - apply (Hdef "LLAMA_CUBLAS" "0"). simpl. tauto.
Defined.

(** On the sample host, when the model does not load: the writes precede
    the settings. *)
Lemma env_defaults_precede_startup_on_sample_host :
  let t := run_trace no_default no_default model_load_fails demo_host ∅ in
  t = firstn 3 t ++ ESetEnv "CUDA_VISIBLE_DEVICES" "-1" :: skipn 4 t /\
  forall e, In e (firstn 3 t) -> is_startup e = false.
Proof.
  intros t.
  assert (Heq : t = firstn 3 t ++ ESetEnv "CUDA_VISIBLE_DEVICES" "-1" :: skipn 4 t)
    by (vm_compute; reflexivity).
  split; [exact Heq|].
  exact (env_defaults_precede_startup no_default no_default model_load_fails
           demo_host ∅ _ _ _ _ Heq).
Defined.

(** Without [uvicorn] the run is the run of the sample host cut before the
    import of [uvicorn]: the app has been created with the same settings. *)
Lemma failing_run_on_sample_host :
  run_trace no_default no_default uvicorn_missing demo_host ∅
    `prefix_of` launch_trace no_default no_default demo_host ∅ /\
  exists s m,
    In (ECreateApp s [m])
       (run_trace no_default no_default uvicorn_missing demo_host ∅) /\
    In (ECreateApp s [m]) (launch_trace no_default no_default demo_host ∅).
Proof.
  destruct (failing_run_is_initial_segment no_default no_default
              uvicorn_missing demo_host ∅) as (Hpre & Hin & _).
  split; [exact Hpre|].
  assert (Hex : exists s m, In (ECreateApp s [m])
                  (run_trace no_default no_default uvicorn_missing demo_host ∅))
    by (do 2 eexists; vm_compute; do 6 right; left; reflexivity).
  destruct Hex as (s & m & Hrun). exists s, m.
  split; [exact Hrun | exact (Hin _ Hrun)].
Defined.

(** Without [uvicorn] the model settings are built all the same, with seven
    and eight threads. *)
Lemma configuration_values_on_failing_run :
  exists m,
    In (EModelSettings m)
       (run_trace no_default no_default uvicorn_missing demo_host ∅) /\
    n_threads m = 7 /\ n_threads_batch m = 8 /\
    n_ctx m = 32768 /\ n_gpu_layers m = 0.
Proof.
  destruct (configuration_values_under_faults no_default no_default
              uvicorn_missing demo_host ∅) as (Hm & _).
  assert (Hex : exists m, In (EModelSettings m)
                  (run_trace no_default no_default uvicorn_missing demo_host ∅))
    by (eexists; vm_compute; do 5 right; left; reflexivity).
  destruct Hex as [m Hin]. exists m.
  destruct (Hm m Hin) as (Hn & Hb & Hc & Hgpu & _).
  split; [exact Hin|]. split; [rewrite Hn; reflexivity|].
  split; [rewrite Hb; reflexivity|]. split; [exact Hc | exact Hgpu].
Defined.
